(** * moactl / rosa command-line client: validation and command control flow

    A shallow embedding of the Go sources of the client:
      - [cmd/create/cluster] (flag validation helpers and [run]),
      - [cmd/describe/cluster] ([getDetailsLink] and [run]),
      - [cmd/create/user], [cmd/install/addon], [cmd/dlt/idp] ([run]),
      - [pkg/ocm] ([ClientBuilder.Build]).

    Go strings are modelled as [string], Go [error] values by their message,
    [time.Time] and [time.Duration] as integers counting nanoseconds, and the
    commands as programs of a small monad that records what the process
    does (reports, remote requests, output) and how it terminates. *)

From Stdlib Require Import ZArith List String Ascii Bool Lia.
From Stdlib Require Import DecimalString.
Import ListNotations.

Local Open Scope string_scope.
Local Open Scope Z_scope.

(** ** Go values *)

(** A Go [error]: [None] is [nil], [Some msg] an error whose [Error()] is
    [msg]. *)
Definition error := option string.

(** A Go call returning [(T, error)] of which the callers here only use the
    value when the error is [nil]. *)
Inductive result (A : Type) : Type :=
| Ok (a : A)
| Err (msg : string).
Arguments Ok {A} a.
Arguments Err {A} msg.

Definition nl : string := String (ascii_of_nat 10) EmptyString.

(** [strconv.Itoa] and the [%d] verb. *)
Definition Itoa (n : Z) : string := NilZero.string_of_int (Z.to_int n).

Module strings.

Fixpoint drop (n : nat) (s : string) : string :=
  match n, s with
  | O, _ => s
  | S n', String _ s' => drop n' s'
  | S _, EmptyString => EmptyString
  end.

(** [strings.Replace(s, old, new, 1)]: the first occurrence of [old] in
    [s], scanning from the left, is replaced by [new]. *)
Fixpoint Replace1 (s old new : string) : string :=
  if String.prefix old s then new ++ drop (String.length old) s
  else match s with
       | EmptyString => EmptyString
       | String c s' => String c (Replace1 s' old new)
       end.

(** [strings.Join(elems, sep)]. *)
Definition Join (elems : list string) (sep : string) : string :=
  String.concat sep elems.

(** [strings.Split(s, ",")]: the pieces of [s] between commas; [cur] holds
    the characters of the current piece, last one first. *)
Fixpoint rev_string (acc : list ascii) (s : string) : string :=
  match acc with
  | [] => s
  | c :: acc' => rev_string acc' (String c s)
  end.

Fixpoint split_comma (cur : list ascii) (s : string) : list string :=
  match s with
  | EmptyString => [rev_string cur EmptyString]
  | String c s' =>
      if Ascii.eqb c ","%char
      then rev_string cur EmptyString :: split_comma [] s'
      else split_comma (c :: cur) s'
  end.

Definition Split (s : string) : list string := split_comma [] s.

(** The number of commas of a string. *)
Fixpoint commas (s : string) : nat :=
  match s with
  | EmptyString => O
  | String c s' => if Ascii.eqb c ","%char then S (commas s') else commas s'
  end.

End strings.

(** ** Cluster keys *)

Module clusterprovider.

Definition is_letter (c : ascii) : bool :=
  let n := nat_of_ascii c in
  ((65 <=? n) && (n <=? 90) || (97 <=? n) && (n <=? 122))%nat.

Definition is_digit (c : ascii) : bool :=
  let n := nat_of_ascii c in ((48 <=? n) && (n <=? 57))%nat.

Definition is_key_char (c : ascii) : bool :=
  is_letter c || is_digit c || Ascii.eqb c "-"%char || Ascii.eqb c "_"%char.

(** Modelled from the spec: [IsValidClusterKey] of [pkg/cluster] (formerly
    [pkg/ocm]) is not among the sources; the specification says that a key
    is accepted exactly when it consists only of letters, digits, dashes
    and underscores. *)
Fixpoint IsValidClusterKey (key : string) : bool :=
  match key with
  | EmptyString => true
  | String c rest => is_key_char c && IsValidClusterKey rest
  end.

End clusterprovider.

(** ** Time *)

Module time.

(** Instants and durations in nanoseconds; an instant counts from the zero
    [Time], as [Round] does. *)
Definition Time := Z.
Definition Duration := Z.

Definition zero : Time := 0.
Definition Second : Duration := 1000000000.
Definition Minute : Duration := 60 * Second.

Definition Add (t : Time) (d : Duration) : Time := t + d.

(** [Time.Round]: [r] is the remainder of [t] by [d]; less than half goes
    down, the rest up. *)
Definition Round (t : Time) (d : Duration) : Time :=
  if d <=? 0 then t
  else
    let r := t mod d in
    if r + r <? d then Add t (- r) else Add t (d - r).

Definition RFC3339 : string := "2006-01-02T15:04:05Z07:00".
Definition RFC3339Nano : string := "2006-01-02T15:04:05.999999999Z07:00".

End time.

(** ** The objects of the API *)

Record IPNet : Type := { IP : list Z; Mask : list Z }.

Definition emptyIPNet : IPNet := {| IP := []; Mask := [] |}.

(** [clusterprovider.Spec], the body of a cluster-creation request. *)
Record Spec : Type := {
  spec_Name : string;
  spec_Region : string;
  spec_MultiAZ : bool;
  spec_Version : string;
  spec_Expiration : time.Time;
  spec_ComputeMachineType : string;
  spec_ComputeNodes : Z;
  spec_MachineCIDR : IPNet;
  spec_ServiceCIDR : IPNet;
  spec_PodCIDR : IPNet;
  spec_HostPrefix : Z;
  spec_Private : option bool
}.

(** [cmv1.ClusterState] is a string type. *)
Definition ClusterState := string.
Definition ClusterStateError : ClusterState := "error".
Definition ClusterStateInstalling : ClusterState := "installing".
Definition ClusterStatePending : ClusterState := "pending".
Definition ClusterStateReady : ClusterState := "ready".

Definition ListeningMethodInternal : string := "internal".

Record ClusterStatus : Type := {
  status_DNSReady : bool;
  status_ProvisionErrorMessage : string;
  status_ProvisionErrorCode : string;
  status_State : ClusterState
}.

Record MachinePoolAutoscaling : Type := {
  MinReplicas : Z;
  MaxReplicas : Z
}.

Record ClusterNodes : Type := {
  nodes_Master : Z;
  nodes_Infra : Z;
  nodes_Compute : Z;
  nodes_AutoscaleCompute : option MachinePoolAutoscaling
}.

Record Cluster : Type := {
  cluster_ID : string;
  cluster_Name : string;
  cluster_DisplayName : string;
  cluster_ExternalID : string;
  cluster_State : ClusterState;
  cluster_Status : ClusterStatus;
  cluster_BaseDomain : string;
  cluster_Properties : list (string * string);
  cluster_APIURL : string;
  cluster_ConsoleURL : string;
  cluster_Nodes : ClusterNodes;
  cluster_RegionID : string;
  cluster_ChannelGroup : string;
  cluster_CreationTimestamp : time.Time
}.

(** Indexing a Go [map[string]string]: a missing key gives [""]. *)
Fixpoint property (props : list (string * string)) (key : string) : string :=
  match props with
  | [] => ""
  | (k, v) :: rest => if String.eqb k key then v else property rest key
  end.

Record Ingress : Type := {
  ingress_Default : bool;
  ingress_Listening : string
}.

Record UpgradePolicy : Type := {
  upgrade_Version : string;
  upgrade_NextRun : time.Time
}.

Record IdentityProvider : Type := {
  idp_ID : string;
  idp_Name : string
}.

Record AddOnParameter : Type := {
  param_ID : string;
  param_Name : string;
  param_Description : string;
  param_DefaultValue : string;
  param_Required : bool;
  param_ValueType : string;
  param_Validation : string
}.

Record AddOnParam : Type := { Key : string; Val : string }.

(** [interactive.Input]; its [Default] is an [interface{}], here the values
    the commands put in it. *)
Inductive DefaultValue : Type :=
| DString (s : string)
| DBool (b : bool)
| DInt (n : Z)
| DIPNet (net : IPNet).

Record Input : Type := {
  Question : string;
  Help : string;
  Options : list string;
  Default : DefaultValue;
  Required : bool
}.

(** ** What a command does *)

(** The requests a command sends to the services it talks to. *)
Inductive Request : Type :=
| NewAWSClient
| GetCreator
| NewOCMConnection
| CloseConnection
| GetRegions
| GetVersions
| GetMachineTypes
| CreateCluster (spec : Spec)
| GetCluster (clusterKey creatorARN : string)
| GetIngresses (clusterID : string)
| GetScheduledUpgrade (clusterID : string)
| AddUser (clusterID group username : string)
| GetAddOnParameters (addOnID : string)
| InstallAddOn (clusterKey creatorARN addOnID : string)
    (params : list AddOnParam)
| GetIdentityProviders (clusterID : string)
| DeleteIdentityProvider (clusterID idpID : string).

(** What can be observed of a run, in order. The reporter's calls keep their
    format and arguments apart, as they are made. [RunLogsCluster] stands for
    all that the [logs cluster] command does when [create cluster] hands over
    to it. *)
Inductive Event : Type :=
| Errorf (format : string) (args : list string)
| Infof (format : string) (args : list string)
| Debugf (format : string) (args : list string)
| Stderr (text : string)
| Stdout (text : string)
| Send (request : Request)
| RunLogsCluster (argv : list string).

(** A piece of a command either goes on with a value or ends the process
    with [os.Exit]. *)
Inductive Outcome (A : Type) : Type :=
| Returns (a : A)
| Exits (code : Z).
Arguments Returns {A} a.
Arguments Exits {A} code.

Definition Cmd (A : Type) : Type := list Event * Outcome A.

Definition ret {A : Type} (a : A) : Cmd A := ([], Returns a).

Definition bind {A B : Type} (m : Cmd A) (k : A -> Cmd B) : Cmd B :=
  match m with
  | (t, Returns a) => let (t', o) := k a in ((t ++ t')%list, o)
  | (t, Exits code) => (t, Exits code)
  end.

Declare Scope cmd_scope.
Delimit Scope cmd_scope with cmd.
Notation "x <- m ;; k" := (bind m (fun x => k))
  (at level 61, m at next level, right associativity) : cmd_scope.
Notation "m ;; k" := (bind m (fun _ => k))
  (at level 61, right associativity) : cmd_scope.
Local Open Scope cmd_scope.

Definition emit (e : Event) : Cmd unit := ([e], Returns tt).

Definition os_Exit {A : Type} (code : Z) : Cmd A := ([], Exits code).

(** [defer f] at the head of the rest of a function: [f] runs when the rest
    returns, and does not run when the process exits inside it. *)
Definition defer {A : Type} (deferred : Cmd unit) (rest : Cmd A) : Cmd A :=
  match rest with
  | (t, Returns a) => ((t ++ fst deferred)%list, Returns a)
  | (t, Exits code) => (t, Exits code)
  end.

(** A request, then its answer. *)
Definition send {A : Type} (request : Request) (answer : A) : Cmd A :=
  emit (Send request) ;; ret answer.

(** The events of a whole run and the status of the process: a [Run] that
    returns lets [main] end with status 0. *)
Definition trace (m : Cmd unit) : list Event := fst m.

Definition status (m : Cmd unit) : Z :=
  match snd m with
  | Returns _ => 0
  | Exits code => code
  end.

(** ** The world around a command

    The answers of everything a command calls outside of its own file: the
    services, the prompts, and the helpers of other packages. *)
Record World : Type := {
  (* reporter and logger *)
  reporterBuild : error;
  loggerBuild : error;
  (* AWS *)
  awsClientBuild : error;
  awsGetCreator : result string;
  awsGetRegion : string -> result string;
  arnParse : string -> result string;
  (* the OCM connection *)
  ocmBuild : error;
  ocmClose : error;
  ocmURL : string;
  (* the OCM API *)
  fetchRegions : result (list string);
  fetchVersions : result (list string);
  fetchMachineTypes : result (list string);
  createCluster : Spec -> result Cluster;
  getCluster : string -> string -> result Cluster;
  getIngresses : string -> list Ingress * error;
  getScheduledUpgrade : string -> result (option UpgradePolicy);
  newUser : string -> result string;
  addUser : string -> string -> nat -> string -> error;
  getAddOnParameters : string -> result (list AddOnParameter);
  installAddOn : string -> string -> string -> list AddOnParam -> error;
  getIdentityProviders : string -> result (list IdentityProvider);
  deleteIdentityProvider : string -> string -> option (string * string);
  (* prompts *)
  interactiveEnabled : bool;
  askString : Input -> result string;
  askOption : Input -> result string;
  askBool : Input -> result bool;
  askInt : Input -> result Z;
  askIPNet : Input -> result IPNet;
  getInput : string -> result string;
  confirm : string -> bool;
  (* libraries *)
  timeNow : time.Time;
  timeParse : string -> string -> result time.Time;
  timeFormat : time.Time -> string -> string;
  regexpMatchString : string -> string -> result bool;
  ipNetString : IPNet -> string;
  (* [properties.CreatorARN] *)
  propertiesCreatorARN : string;
  (* how the [Run] of the [logs cluster] command ends *)
  logsClusterRun : list string -> Outcome unit
}.

(** Modelled from the spec: [rprtr.CreateReporterOrExit] and
    [logging.CreateLoggerOrExit] are not among the sources. The reporter and
    logger component exits the process with a status code on failure; the
    message and the status 1 are those of [create user], which spells the
    same two steps out. *)
Definition CreateReporterOrExit (w : World) : Cmd unit :=
  match reporterBuild w with
  | Some err => emit (Stderr ("Failed to create reporter: " ++ err ++ nl)) ;;
                os_Exit 1
  | None => ret tt
  end.

Definition CreateLoggerOrExit (w : World) : Cmd unit :=
  match loggerBuild w with
  | Some err => emit (Errorf "Failed to create logger: %v" [err]) ;;
                os_Exit 1
  | None => ret tt
  end.

(** [aws.NewClient().Logger(logger).Build()] followed by
    [awsClient.GetCreator()], each checked; gives the creator's ARN. *)
Definition awsCreatorOrExit (w : World) : Cmd string :=
  err <- send NewAWSClient (awsClientBuild w) ;;
  match err with
  | Some err => emit (Errorf "Failed to create AWS client: %v" [err]) ;;
                os_Exit 1
  | None =>
      creator <- send GetCreator (awsGetCreator w) ;;
      match creator with
      | Err err => emit (Errorf "Failed to get AWS creator: %v" [err]) ;;
                   os_Exit 1
      | Ok creatorARN => ret creatorARN
      end
  end.

(** [ocm.NewConnection().Logger(logger).Build()], checked. *)
Definition ocmConnectionOrExit (w : World) : Cmd unit :=
  err <- send NewOCMConnection (ocmBuild w) ;;
  match err with
  | Some err => emit (Errorf "Failed to create OCM connection: %v" [err]) ;;
                os_Exit 1
  | None => ret tt
  end.

(** The deferred function of every command:
    [err = ocmConnection.Close(); if err != nil { reporter.Errorf(...) }]. *)
Definition closeConnection (w : World) : Cmd unit :=
  err <- send CloseConnection (ocmClose w) ;;
  match err with
  | Some err => emit (Errorf "Failed to close OCM connection: %v" [err])
  | None => ret tt
  end.

Definition invalidClusterKeyFormat : string :=
  "Cluster name, identifier or external identifier '%s' isn't valid: it " ++
  "must contain only letters, digits, dashes and underscores".

(** ** [create cluster] *)

Module createcluster.

Record Args : Type := {
  watch : bool;
  private : bool;
  multiAZ : bool;
  expirationDuration : time.Duration;
  expirationTime : string;
  name : string;
  region : string;
  version : string;
  computeMachineType : string;
  computeNodes : Z;
  hostPrefix : Z;
  machineCIDR : IPNet;
  serviceCIDR : IPNet;
  podCIDR : IPNet
}.

(** The usage texts of the flags, which the prompts show as help. *)
Definition usage_name : string :=
  "Name of the cluster. This will be used when generating a sub-domain for your cluster on openshiftapps.com.".
Definition usage_region : string :=
  "AWS region where your worker pool will be located. (overrides the AWS_REGION environment variable)".
Definition usage_version : string :=
  "Version of OpenShift that will be used to install the cluster, for example " ++
  String (ascii_of_nat 34) "4.3.10" ++ String (ascii_of_nat 34) "".
Definition usage_multi_az : string := "Deploy to multiple data centers.".
Definition usage_compute_machine_type : string :=
  "Instance type for the compute nodes. Determines the amount of memory and vCPU allocated to each compute node.".
Definition usage_compute_nodes : string :=
  "Number of worker nodes to provision per zone. Single zone clusters need at least 4 nodes, " ++
  "while multizone clusters need at least 9 nodes (3 per zone) for resiliency." ++ nl.
Definition usage_machine_cidr : string :=
  "Block of IP addresses used by OpenShift while installing the cluster, for example " ++
  String (ascii_of_nat 34) "10.0.0.0/16" ++ String (ascii_of_nat 34) ".".
Definition usage_service_cidr : string :=
  "Block of IP addresses for services, for example " ++
  String (ascii_of_nat 34) "172.30.0.0/16" ++ String (ascii_of_nat 34) ".".
Definition usage_pod_cidr : string :=
  "Block of IP addresses from which Pod IP addresses are allocated, for example " ++
  String (ascii_of_nat 34) "10.128.0.0/14" ++ String (ascii_of_nat 34) ".".
Definition usage_host_prefix : string :=
  "Subnet prefix length to assign to each individual node. For example, if host prefix is set " ++
  "to " ++ String (ascii_of_nat 34) "23" ++ String (ascii_of_nat 34)
  ", then each node is assigned a /23 subnet out of the given CIDR.".
Definition usage_private : string :=
  "Restrict master API endpoint and application routes to direct, private connectivity." ++ nl.

(** The membership loop shared by [validateVersion] and
    [validateMachineType]:
    [has := false; for _, v := range list { if v == x { has = true } }]. *)
Definition hasValue (x : string) (list : list string) : bool :=
  fold_left (fun has v => if String.eqb v x then true else has) list false.

Definition validateVersion (version : string) (versionList : list string)
  : string * error :=
  if negb (String.eqb version "") then
    let hasVersion := hasValue version versionList in
    if negb hasVersion then
      let allVersions := strings.Join versionList " " in
      (version,
       Some ("A valid version number must be specified" ++ nl ++
             "Valid versions: " ++ allVersions))
    else ("openshift-v" ++ version, None)
  else (version, None).

Definition validateMachineType (machineType : string)
  (machineTypeList : list string) : string * error :=
  if negb (String.eqb machineType "") then
    let hasMachineType := hasValue machineType machineTypeList in
    if negb hasMachineType then
      let allMachineTypes := strings.Join machineTypeList " " in
      (machineType,
       Some ("A valid machine type number must be specified" ++ nl ++
             "Valid machine types: " ++ allMachineTypes))
    else (machineType, None)
  else (machineType, None).

(** [for _, v := range items { list = append(list, f(v.ID())) }]. *)
Definition collect (f : string -> string) (ids : list string) : list string :=
  fold_left (fun l id => (l ++ [f id])%list) ids [].

(** [getVersionList], [getMachineTypeList] and [getRegionList]: the
    request, then the identifiers of the fetched items or the error. *)
Definition getVersionList (w : World) : Cmd (list string * error) :=
  versions <- send GetVersions (fetchVersions w) ;;
  match versions with
  | Err err => ret ([], Some ("Failed to retrieve versions: " ++ err))
  | Ok versions =>
      ret (collect (fun id => strings.Replace1 id "openshift-v" "") versions,
           None)
  end.

Definition getMachineTypeList (w : World) : Cmd (list string * error) :=
  machineTypes <- send GetMachineTypes (fetchMachineTypes w) ;;
  match machineTypes with
  | Err err => ret ([], Some ("Failed to retrieve machine types: " ++ err))
  | Ok machineTypes => ret (collect (fun id => id) machineTypes, None)
  end.

Definition getRegionList (w : World) : Cmd (list string * error) :=
  regions <- send GetRegions (fetchRegions w) ;;
  match regions with
  | Err err => ret ([], Some ("Failed to retrieve AWS regions: " ++ err))
  | Ok regions => ret (collect (fun id => id) regions, None)
  end.

Definition parseRFC3339 (w : World) (s : string) : result time.Time :=
  match timeParse w time.RFC3339Nano s with
  | Ok t => Ok t
  | Err _ => timeParse w time.RFC3339 s
  end.

Definition errBothExpirations : string :=
  "At most one of 'expiration-time' or 'expiration' may be specified".

Definition validateExpiration (w : World) (args : Args)
  : time.Time * error :=
  if (0 <? Z.of_nat (String.length (expirationTime args)))
     && negb (expirationDuration args =? 0)
  then (time.zero, Some errBothExpirations)
  else
    let parsed :=
      if 0 <? Z.of_nat (String.length (expirationTime args)) then
        match parseRFC3339 w (expirationTime args) with
        | Err err => Err ("Failed to parse expiration-time: " ++ err)
        | Ok t => Ok t
        end
      else Ok time.zero in
    match parsed with
    | Err err => (time.zero, Some err)
    | Ok expiration =>
        let expiration :=
          if negb (expirationDuration args =? 0)
          then time.Round
                 (time.Add (timeNow w) (expirationDuration args))
                 time.Second
          else expiration in
        (expiration, None)
    end.

(** The inputs of the prompts. *)
Definition input (question help : string) (options : list string)
  (default : DefaultValue) (required : bool) : Input :=
  {| Question := question; Help := help; Options := options;
     Default := default; Required := required |}.

Definition nameInput (default : string) : Input :=
  input "Cluster name" usage_name [] (DString default) true.
Definition regionInput (regionList : list string) (default : string) : Input :=
  input "AWS region" usage_region regionList (DString default) true.
Definition versionInput (versionList : list string) (default : string)
  : Input :=
  input "OpenShift version" usage_version versionList (DString default) false.
Definition multiAZInput (default : bool) : Input :=
  input "Multiple availability zones" usage_multi_az [] (DBool default) false.
Definition machineTypeInput (machineTypeList : list string)
  (default : string) : Input :=
  input "Compute nodes instance type" usage_compute_machine_type
    machineTypeList (DString default) false.
Definition computeNodesInput (default : Z) : Input :=
  input "Compute nodes" usage_compute_nodes [] (DInt default) false.
Definition machineCIDRInput (default : IPNet) : Input :=
  input "Machine CIDR" usage_machine_cidr [] (DIPNet default) false.
Definition serviceCIDRInput (default : IPNet) : Input :=
  input "Service CIDR" usage_service_cidr [] (DIPNet default) false.
Definition podCIDRInput (default : IPNet) : Input :=
  input "Pod CIDR" usage_pod_cidr [] (DIPNet default) false.
Definition hostPrefixInput (default : Z) : Input :=
  input "Host prefix" usage_host_prefix [] (DInt default) false.
Definition privateInput (default : bool) : Input :=
  input "Private cluster" usage_private [] (DBool default) false.

(** The value a field ends up with: the flag's, or in interactive mode what
    the prompt gives for the flag's value as default. *)
Definition answer {A : Type} (w : World) (flag : A)
  (prompt : Input -> result A) (input : A -> Input) : result A :=
  if interactiveEnabled w then prompt (input flag) else Ok flag.

(** [if interactive.Enabled() { v, err = prompt; if err != nil { report;
    exit } }] around a value that starts as the flag's. *)
Definition prompted {A : Type} (w : World) (flag : A)
  (prompt : Input -> result A) (input : A -> Input) (format : string)
  : Cmd A :=
  match answer w flag prompt input with
  | Err err => emit (Errorf format [err]) ;; os_Exit 1
  | Ok v => ret v
  end.

(** [if err != nil { reporter.Errorf(fmt.Sprintf("%s", err)); os.Exit(1) }]
    after one of the list getters. *)
Definition listOrExit (got : list string * error) : Cmd (list string) :=
  match snd got with
  | Some err => emit (Errorf err []) ;; os_Exit 1
  | None => ret (fst got)
  end.

Definition run (w : World) (args : Args) : Cmd unit :=
  CreateReporterOrExit w ;;
  CreateLoggerOrExit w ;;
  ocmConnectionOrExit w ;;
  defer (closeConnection w) (
    (if interactiveEnabled w then
       emit (Infof ("Interactive mode enabled." ++ nl ++
                    "Any optional fields can be left empty and a default will be selected.") [])
     else ret tt) ;;
    (* Get cluster name *)
    name <- prompted w (name args) (askString w) nameInput
              "Expected a valid cluster name: %s" ;;
    (if negb (clusterprovider.IsValidClusterKey name) then
       emit (Errorf "Expected a valid cluster name" []) ;; os_Exit 1
     else ret tt) ;;
    (* Get AWS region *)
    region <- match awsGetRegion w (region args) with
              | Err err => emit (Errorf "Error getting region: %v" [err]) ;;
                           os_Exit 1
              | Ok region => ret region
              end ;;
    got <- getRegionList w ;;
    regionList <- listOrExit got ;;
    region <- prompted w region (askOption w) (regionInput regionList)
                "Expected a valid AWS region: %s" ;;
    (if String.eqb region "" then
       emit (Errorf "Expected a valid AWS region" []) ;; os_Exit 1
     else ret tt) ;;
    (* OpenShift version *)
    got <- getVersionList w ;;
    versionList <- listOrExit got ;;
    version <- prompted w (version args) (askOption w)
                 (versionInput versionList)
                 "Expected a valid OpenShift version: %s" ;;
    version <- match validateVersion version versionList with
               | (_, Some err) =>
                   emit (Errorf "Expected a valid OpenShift version: %s" [err]) ;;
                   os_Exit 1
               | (version, None) => ret version
               end ;;
    (* Multi-AZ *)
    multiAZ <- prompted w (multiAZ args) (askBool w) multiAZInput
                 "Expected a valid multi-AZ value: %s" ;;
    (* Compute node instance type *)
    got <- getMachineTypeList w ;;
    computeMachineTypeList <- listOrExit got ;;
    computeMachineType <-
      prompted w (computeMachineType args) (askOption w)
        (machineTypeInput computeMachineTypeList)
        "Expected a valid machine type: %s" ;;
    computeMachineType <-
      match validateMachineType computeMachineType computeMachineTypeList with
      | (_, Some err) =>
          emit (Errorf "Expected a valid machine type: %s" [err]) ;; os_Exit 1
      | (machineType, None) => ret machineType
      end ;;
    (* Compute nodes *)
    computeNodes <- prompted w (computeNodes args) (askInt w) computeNodesInput
                      "Expected a valid number of compute nodes: %s" ;;
    (* Validate all remaining flags *)
    expiration <- match validateExpiration w args with
                  | (_, Some err) => emit (Errorf err []) ;; os_Exit 1
                  | (expiration, None) => ret expiration
                  end ;;
    (* Machine CIDR *)
    machineCIDR <- prompted w (machineCIDR args) (askIPNet w) machineCIDRInput
                     "Expected a valid CIDR value: %s" ;;
    (* Service CIDR *)
    serviceCIDR <- prompted w (serviceCIDR args) (askIPNet w) serviceCIDRInput
                     "Expected a valid CIDR value: %s" ;;
    (* Pod CIDR *)
    podCIDR <- prompted w (podCIDR args) (askIPNet w) podCIDRInput
                 "Expected a valid CIDR value: %s" ;;
    (* Host prefix *)
    hostPrefix <- prompted w (hostPrefix args) (askInt w) hostPrefixInput
                    "Expected a valid host prefix value: %s" ;;
    (* Cluster privacy *)
    private <- prompted w (private args) (askBool w) privateInput
                 "Expected a valid private value: %s" ;;
    let clusterConfig :=
      {| spec_Name := name;
         spec_Region := region;
         spec_MultiAZ := multiAZ;
         spec_Version := version;
         spec_Expiration := expiration;
         spec_ComputeMachineType := computeMachineType;
         spec_ComputeNodes := computeNodes;
         spec_MachineCIDR := machineCIDR;
         spec_ServiceCIDR := serviceCIDR;
         spec_PodCIDR := podCIDR;
         spec_HostPrefix := hostPrefix;
         spec_Private := Some private |} in
    created <- send (CreateCluster clusterConfig)
                 (createCluster w clusterConfig) ;;
    match created with
    | Err err => emit (Errorf "Failed to create cluster: %v" [err]) ;;
                 os_Exit 1
    | Ok cluster =>
        let clusterID := cluster_ID cluster in
        let clusterName := cluster_Name cluster in
        emit (Infof "Cluster '%s' has been created." [clusterName]) ;;
        emit (Infof ("Once the cluster is installed you will need to add an Identity Provider " ++
                     "before you can login into the cluster. See 'moactl create idp --help' " ++
                     "for more information.") []) ;;
        if watch args then
          emit (RunLogsCluster [clusterID]) ;;
          ([], logsClusterRun w [clusterID])
        else
          emit (Infof "To determine when your cluster is Ready, run 'moactl describe cluster -c %s'."
                  [clusterName]) ;;
          emit (Infof "To watch your cluster installation logs, run 'moactl logs cluster -c %s --watch'."
                  [clusterName])
    end).

End createcluster.

(** ** [describe cluster] *)

Module describecluster.

Definition StageURL : string :=
  "https://qaprodauth.cloud.redhat.com/openshift/details/".
Definition ProductionURL : string :=
  "https://cloud.redhat.com/openshift/details/".
Definition StageEnv : string := "https://api.stage.openshift.com".
Definition ProductionEnv : string := "https://api.openshift.com".

Record Args : Type := { clusterKey : string }.

Definition getDetailsLink (environment : string) : string :=
  if String.eqb environment StageEnv then StageURL
  else if String.eqb environment ProductionEnv then ProductionURL
  else "".

(** The phase shown after the state. *)
Definition phaseOf (cluster : Cluster) : string :=
  let phase := "" in
  let phase :=
    if String.eqb (cluster_State cluster) ClusterStatePending
    then "(Preparing account)" else phase in
  if String.eqb (cluster_State cluster) ClusterStateInstalling then
    let status := cluster_Status cluster in
    let phase :=
      if negb (status_DNSReady status) then "(DNS setup in progress)"
      else phase in
    if negb (String.eqb (status_ProvisionErrorMessage status) "") then
      let errorCode :=
        if negb (String.eqb (status_ProvisionErrorCode status) "")
        then status_ProvisionErrorCode status ++ " - " else "" in
      "(" ++ errorCode ++ "Install is taking longer than expected)"
    else phase
  else phase.

(** [for _, ingress := range ingresses { if default and internal
    { isPrivate = "Yes" } }]. *)
Definition isPrivateOf (ingresses : list Ingress) : string :=
  fold_left
    (fun isPrivate ingress =>
       if ingress_Default ingress
          && String.eqb (ingress_Listening ingress) ListeningMethodInternal
       then "Yes" else isPrivate)
    ingresses "No".

Definition nodesStrOf (nodes : ClusterNodes) : string :=
  match nodes_AutoscaleCompute nodes with
  | Some autoscale =>
      "Nodes:                      Master: " ++ Itoa (nodes_Master nodes) ++
      ", Infra: " ++ Itoa (nodes_Infra nodes) ++
      ", Compute (Autoscaled): " ++ Itoa (MinReplicas autoscale) ++
      "-" ++ Itoa (MaxReplicas autoscale) ++ nl
  | None =>
      "Nodes:                      Master: " ++ Itoa (nodes_Master nodes) ++
      ", Infra: " ++ Itoa (nodes_Infra nodes) ++
      ", Compute: " ++ Itoa (nodes_Compute nodes) ++ nl
  end.

(** The lines of the description, one per line of the formats; what is
    printed is their concatenation. *)
Definition shortDescription (w : World) (cluster : Cluster)
  (accountID phase isPrivate nodesStr : string) : list string :=
  let clusterName :=
    if String.eqb (cluster_DisplayName cluster) ""
    then cluster_Name cluster else cluster_DisplayName cluster in
  [ "Name:                       " ++ clusterName ++ nl;
    "DNS:                        " ++ cluster_Name cluster ++ "." ++
      cluster_BaseDomain cluster ++ nl;
    "ID:                         " ++ cluster_ID cluster ++ nl;
    "External ID:                " ++ cluster_ExternalID cluster ++ nl;
    "AWS Account:                " ++ accountID ++ nl;
    "API URL:                    " ++ cluster_APIURL cluster ++ nl;
    "Console URL:                " ++ cluster_ConsoleURL cluster ++ nl;
    nodesStr;
    "Region:                     " ++ cluster_RegionID cluster ++ nl;
    "State:                      " ++ cluster_State cluster ++ " " ++
      phase ++ nl;
    "Channel Group:              " ++ cluster_ChannelGroup cluster ++ nl;
    "Private:                    " ++ isPrivate ++ nl;
    "Created:                    " ++
      timeFormat w (cluster_CreationTimestamp cluster)
        "Jan _2 2006 15:04:05 MST" ++ nl ].

Definition detailsLines (detailsPage clusterID : string) : list string :=
  if negb (String.eqb detailsPage "")
  then ["Details Page:               " ++ detailsPage ++ clusterID ++ nl]
  else [].

Definition upgradeLines (w : World) (scheduledUpgrade : option UpgradePolicy)
  : list string :=
  match scheduledUpgrade with
  | Some upgrade =>
      ["Scheduled upgrade:          " ++ upgrade_Version upgrade ++ " on " ++
       timeFormat w (upgrade_NextRun upgrade) "2006-01-02 15:04 MST" ++ nl]
  | None => []
  end.

Definition errorLines (cluster : Cluster) : list string :=
  let status := cluster_Status cluster in
  if String.eqb (status_State status) ClusterStateError
  then ["Provisioning Error Code:    " ++ status_ProvisionErrorCode status ++ nl;
        "Provisioning Error Message: " ++
          status_ProvisionErrorMessage status ++ nl]
  else [].

Definition descriptionLines (w : World) (cluster : Cluster)
  (accountID : string) (ingresses : list Ingress)
  (scheduledUpgrade : option UpgradePolicy) (detailsPage : string)
  : list string :=
  (shortDescription w cluster accountID (phaseOf cluster)
     (isPrivateOf ingresses) (nodesStrOf (cluster_Nodes cluster))
   ++ detailsLines detailsPage (cluster_ID cluster)
   ++ upgradeLines w scheduledUpgrade
   ++ errorLines cluster)%list.

Definition run (w : World) (args : Args) (argv : list string) : Cmd unit :=
  CreateReporterOrExit w ;;
  CreateLoggerOrExit w ;;
  (* Check command line arguments *)
  clusterKey <-
    (if String.eqb (clusterKey args) "" then
       match argv with
       | [arg] => ret arg
       | _ =>
           emit (Errorf ("Expected exactly one command line argument or flag containing the name " ++
                         "or identifier of the cluster") []) ;;
           os_Exit 1
       end
     else ret (clusterKey args)) ;;
  (if negb (clusterprovider.IsValidClusterKey clusterKey) then
     emit (Errorf invalidClusterKeyFormat [clusterKey]) ;; os_Exit 1
   else ret tt) ;;
  creatorARN <- awsCreatorOrExit w ;;
  ocmConnectionOrExit w ;;
  defer (closeConnection w) (
    emit (Debugf "Loading cluster '%s'" [clusterKey]) ;;
    found <- send (GetCluster clusterKey creatorARN)
               (getCluster w clusterKey creatorARN) ;;
    cluster <- match found with
               | Err err =>
                   emit (Errorf ("Failed to get cluster '" ++ clusterKey ++
                                 "': " ++ err) []) ;;
                   os_Exit 1
               | Ok cluster => ret cluster
               end ;;
    accountID <-
      match arnParse w (property (cluster_Properties cluster)
                          (propertiesCreatorARN w)) with
      | Err _ =>
          emit (Errorf "Failed to parse creator ARN for cluster '%s'"
                  [clusterKey]) ;;
          os_Exit 1
      | Ok accountID => ret accountID
      end ;;
    ingresses <- send (GetIngresses (cluster_ID cluster))
                   (getIngresses w (cluster_ID cluster)) ;;
    upgrade <- send (GetScheduledUpgrade (cluster_ID cluster))
                 (getScheduledUpgrade w (cluster_ID cluster)) ;;
    scheduledUpgrade <-
      match upgrade with
      | Err err =>
          emit (Errorf "Failed to get scheduled upgrades for cluster '%s': %v"
                  [clusterKey; err]) ;;
          os_Exit 1
      | Ok scheduledUpgrade => ret scheduledUpgrade
      end ;;
    let detailsPage := getDetailsLink (ocmURL w) in
    let str :=
      String.concat ""
        (descriptionLines w cluster accountID (fst ingresses)
           scheduledUpgrade detailsPage) in
    emit (Stdout str) ;;
    emit (Stdout nl)).

End describecluster.

(** ** [create user] *)

Module createuser.

Record Args : Type := {
  clusterKey : string;
  clusterAdmins : string;
  dedicatedAdmins : string
}.

(** One of the two loops over [strings.Split(list, ",")]; [role] is
    [cluster-admin] or [dedicated-admin], the group is [role ++ "s"], and
    [position] counts the usernames already gone through. *)
Fixpoint addUsers (w : World) (clusterKey clusterID role : string)
  (position : nat) (usernames : list string) : Cmd unit :=
  match usernames with
  | [] => ret tt
  | username :: rest =>
      match newUser w username with
      | Err _ =>
          emit (Errorf ("Failed to create " ++ role ++
                        " user '%s' for cluster '%s'")
                  [username; clusterKey])
      | Ok user =>
          err <- send (AddUser clusterID (role ++ "s") user)
                   (addUser w clusterID (role ++ "s") position user) ;;
          match err with
          | Some err =>
              emit (Errorf ("Failed to add " ++ role ++
                            " user '%s' to cluster '%s': %v")
                      [username; clusterKey; err])
          | None => ret tt
          end
      end ;;
      addUsers w clusterKey clusterID role (S position) rest
  end.

(** The requests a loop is expected to send: one for each username, in the
    order of the list, but for those of which no user could be built. *)
Definition additions (w : World) (clusterID role : string)
  (usernames : list string) : list Request :=
  flat_map
    (fun username =>
       match newUser w username with
       | Ok user => [AddUser clusterID (role ++ "s") user]
       | Err _ => []
       end)
    usernames.

Definition run (w : World) (args : Args) : Cmd unit :=
  (* Create the reporter *)
  match reporterBuild w with
  | Some err => emit (Stderr ("Failed to create reporter: " ++ err ++ nl)) ;;
                os_Exit 1
  | None => ret tt
  end ;;
  (* Create the logger *)
  match loggerBuild w with
  | Some err => emit (Errorf "Failed to create logger: %v" [err]) ;; os_Exit 1
  | None => ret tt
  end ;;
  let clusterKey := clusterKey args in
  (if negb (clusterprovider.IsValidClusterKey clusterKey) then
     emit (Errorf invalidClusterKeyFormat [clusterKey]) ;; os_Exit 1
   else ret tt) ;;
  creatorARN <- awsCreatorOrExit w ;;
  ocmConnectionOrExit w ;;
  defer (closeConnection w) (
    emit (Infof "Loading cluster '%s'" [clusterKey]) ;;
    found <- send (GetCluster clusterKey creatorARN)
               (getCluster w clusterKey creatorARN) ;;
    cluster <- match found with
               | Err err =>
                   emit (Errorf "Failed to get cluster '%s': %v"
                           [clusterKey; err]) ;;
                   os_Exit 1
               | Ok cluster => ret cluster
               end ;;
    (if negb (String.eqb (cluster_State cluster) ClusterStateReady) then
       emit (Errorf "Cluster '%s' is not yet ready" [clusterKey]) ;; os_Exit 1
     else ret tt) ;;
    admins <-
      (if String.eqb (clusterAdmins args) ""
          && String.eqb (dedicatedAdmins args) "" then
         match getInput w "Comma-separated list of cluster-admins to add to your cluster" with
         | Err _ =>
             emit (Errorf "Expected a commad-separated list of usernames" []) ;;
             os_Exit 1
         | Ok clusterAdmins =>
             match getInput w "Comma-separated list of dedicated-admins to add to your cluster" with
             | Err _ =>
                 emit (Errorf "Expected a commad-separated list of usernames" []) ;;
                 os_Exit 1
             | Ok dedicatedAdmins => ret (clusterAdmins, dedicatedAdmins)
             end
         end
       else ret (clusterAdmins args, dedicatedAdmins args)) ;;
    let clusterAdmins := fst admins in
    let dedicatedAdmins := snd admins in
    (if String.eqb clusterAdmins "" && String.eqb dedicatedAdmins "" then
       emit (Errorf "Expected at least one of 'cluster-admins' or 'dedicated-admins'" []) ;;
       os_Exit 1
     else ret tt) ;;
    (if negb (String.eqb clusterAdmins "") then
       emit (Infof "Adding cluster-admin users to cluster '%s'" [clusterKey]) ;;
       addUsers w clusterKey (cluster_ID cluster) "cluster-admin" 0
         (strings.Split clusterAdmins)
     else ret tt) ;;
    (if negb (String.eqb dedicatedAdmins "") then
       emit (Infof "Adding dedicated-admin users to cluster '%s'" [clusterKey]) ;;
       addUsers w clusterKey (cluster_ID cluster) "dedicated-admin" 0
         (strings.Split dedicatedAdmins)
     else ret tt)).

End createuser.

(** ** [install addon] *)

Module installaddon.

Record Args : Type := { clusterKey : string }.

(** The callback of [parameters.Each], which always asks for the next
    parameter, over the parameters in order; [params] is the slice the
    callback appends to. *)
Fixpoint eachParameter (w : World) (parameters : list AddOnParameter)
  (params : list AddOnParam) : Cmd (list AddOnParam) :=
  match parameters with
  | [] => ret params
  | param :: rest =>
      let input := {| Question := param_Name param;
                      Help := param_Description param;
                      Options := [];
                      Default := DString (param_DefaultValue param);
                      Required := param_Required param |} in
      let answer : result string :=
        if String.eqb (param_ValueType param) "boolean" then
          match askBool w input with
          | Err err => Err err
          | Ok boolVal => Ok (if boolVal then "true" else "false")
          end
        else if String.eqb (param_ValueType param) "cidr" then
          match askIPNet w input with
          | Err err => Err err
          | Ok cidrVal => Ok (ipNetString w cidrVal)
          end
        else if String.eqb (param_ValueType param) "number" then
          match askInt w input with
          | Err err => Err err
          | Ok numVal => Ok (Itoa numVal)
          end
        else if String.eqb (param_ValueType param) "string" then
          askString w input
        else Ok "" in
      val <- match answer with
             | Err err =>
                 emit (Errorf "Expected a valid value for '%s': %v"
                         [param_ID param; err]) ;;
                 os_Exit 1
             | Ok val => ret val
             end ;;
      (if negb (String.eqb (param_Validation param) "") then
         match regexpMatchString w (param_Validation param) val with
         | Ok true => ret tt
         | _ =>
             emit (Errorf "Expected %v to match /%s/"
                     [val; param_Validation param]) ;;
             os_Exit 1
         end
       else ret tt) ;;
      eachParameter w rest
        (params ++ [{| Key := param_ID param; Val := val |}])%list
  end.

Definition run (w : World) (args : Args) (argv : list string) : Cmd unit :=
  CreateReporterOrExit w ;;
  CreateLoggerOrExit w ;;
  (* Check command line arguments *)
  addOnID <- match argv with
             | [arg] => ret arg
             | _ =>
                 emit (Errorf "Expected exactly one command line parameters containing the identifier of the add-on." []) ;;
                 os_Exit 1
             end ;;
  (if String.eqb addOnID "" then
     emit (Errorf "Add-on ID is required." []) ;; os_Exit 1
   else ret tt) ;;
  let clusterKey := clusterKey args in
  (if negb (clusterprovider.IsValidClusterKey clusterKey) then
     emit (Errorf invalidClusterKeyFormat [clusterKey]) ;; os_Exit 1
   else ret tt) ;;
  creatorARN <- awsCreatorOrExit w ;;
  ocmConnectionOrExit w ;;
  defer (closeConnection w) (
    emit (Debugf "Loading cluster '%s'" [clusterKey]) ;;
    found <- send (GetCluster clusterKey creatorARN)
               (getCluster w clusterKey creatorARN) ;;
    cluster <- match found with
               | Err err =>
                   emit (Errorf "Failed to get cluster '%s': %v"
                           [clusterKey; err]) ;;
                   os_Exit 1
               | Ok cluster => ret cluster
               end ;;
    (if negb (String.eqb (cluster_State cluster) ClusterStateReady) then
       emit (Errorf "Cluster '%s' is not yet ready" [clusterKey]) ;; os_Exit 1
     else ret tt) ;;
    (if negb (confirm w ("install add-on '" ++ addOnID ++ "' on cluster '" ++
                         clusterKey ++ "'"))
     then os_Exit 0 else ret tt) ;;
    got <- send (GetAddOnParameters addOnID) (getAddOnParameters w addOnID) ;;
    parameters <- match got with
                  | Err err =>
                      emit (Errorf "Failed to get add-on '%s' parameters: %v"
                              [addOnID; err]) ;;
                      os_Exit 1
                  | Ok parameters => ret parameters
                  end ;;
    params <- (if (0 <? List.length parameters)%nat
               then eachParameter w parameters []
               else ret []) ;;
    emit (Debugf "Installing add-on '%s' on cluster '%s'"
            [addOnID; clusterKey]) ;;
    err <- send (InstallAddOn clusterKey creatorARN addOnID params)
             (installAddOn w clusterKey creatorARN addOnID params) ;;
    match err with
    | Some err =>
        emit (Errorf "Failed to add add-on installation '%s' for cluster '%s': %v"
                [addOnID; clusterKey; err]) ;;
        os_Exit 1
    | None =>
        emit (Infof "Add-on '%s' is now installing. To check the status run 'rosa list addons -c %s'"
                [addOnID; clusterKey])
    end).

End installaddon.

(** ** [delete idp] *)

Module deleteidp.

Record Args : Type := { clusterKey : string }.

(** [for _, item := range idps { if item.Name() == idpName { idp = item } }]. *)
Definition findIdp (idpName : string) (idps : list IdentityProvider)
  : option IdentityProvider :=
  fold_left
    (fun idp item => if String.eqb (idp_Name item) idpName then Some item
                     else idp)
    idps None.

(** [Args] of the command admits exactly one argument, so [run] is entered
    with [argv = [idpName]]. *)
Definition run (w : World) (args : Args) (idpName : string) : Cmd unit :=
  CreateReporterOrExit w ;;
  CreateLoggerOrExit w ;;
  let clusterKey := clusterKey args in
  (if negb (clusterprovider.IsValidClusterKey clusterKey) then
     emit (Errorf invalidClusterKeyFormat [clusterKey]) ;; os_Exit 1
   else ret tt) ;;
  creatorARN <- awsCreatorOrExit w ;;
  ocmConnectionOrExit w ;;
  defer (closeConnection w) (
    emit (Debugf "Loading cluster '%s'" [clusterKey]) ;;
    found <- send (GetCluster clusterKey creatorARN)
               (getCluster w clusterKey creatorARN) ;;
    cluster <- match found with
               | Err err =>
                   emit (Errorf "Failed to get cluster '%s': %v"
                           [clusterKey; err]) ;;
                   os_Exit 1
               | Ok cluster => ret cluster
               end ;;
    emit (Debugf "Loading identity provider '%s'" [idpName]) ;;
    got <- send (GetIdentityProviders (cluster_ID cluster))
             (getIdentityProviders w (cluster_ID cluster)) ;;
    idps <- match got with
            | Err err =>
                emit (Errorf "Failed to get identity providers for cluster '%s': %v"
                        [clusterKey; err]) ;;
                os_Exit 1
            | Ok idps => ret idps
            end ;;
    idp <- match findIdp idpName idps with
           | None =>
               emit (Errorf "Failed to get identity provider '%s' for cluster '%s'"
                       [idpName; clusterKey]) ;;
               os_Exit 1
           | Some idp => ret idp
           end ;;
    if confirm w ("delete identity provider " ++ idpName ++ " on cluster " ++
                  clusterKey) then
      emit (Debugf "Deleting identity provider '%s' on cluster '%s'"
              [idpName; clusterKey]) ;;
      failed <- send (DeleteIdentityProvider (cluster_ID cluster) (idp_ID idp))
                  (deleteIdentityProvider w (cluster_ID cluster) (idp_ID idp)) ;;
      match failed with
      | Some (err, reason) =>
          emit (Debugf err []) ;;
          emit (Errorf "Failed to delete identity provider '%s' on cluster '%s': %s"
                  [idpName; clusterKey; reason]) ;;
          os_Exit 1
      | None =>
          emit (Infof "Successfully deleted identity provider '%s' from cluster '%s'"
                  [idpName; clusterKey])
      end
    else ret tt).

End deleteidp.

(** ** The OCM client builder *)

Module ocm.

Section Client.

(** [*logrus.Logger], the logger of the SDK, and [*sdk.Connection]. *)
Variables Logger OCMLogger Connection : Type.

(** The cached configuration; [Scopes] is [None] for a [nil] slice. *)
Record Config : Type := {
  TokenURL : string;
  ClientID : string;
  ClientSecret : string;
  Scopes : option (list string);
  URL : string;
  AccessToken : string;
  RefreshToken : string;
  Insecure : bool
}.

Record Client : Type := { ocm : Connection }.

Record ClientBuilder : Type := {
  logger : option Logger;
  cfg : option Config
}.

Definition NewClient : ClientBuilder := {| logger := None; cfg := None |}.

Definition SetLogger (b : ClientBuilder) (value : Logger) : ClientBuilder :=
  {| logger := Some value; cfg := cfg b |}.

Definition SetConfig (b : ClientBuilder) (value : Config) : ClientBuilder :=
  {| logger := logger b; cfg := Some value |}.

(** [sdk.ConnectionBuilder]: for each property, whether its setter has been
    called, and with what. *)
Record ConnectionBuilder : Type := {
  set_Logger : option OCMLogger;
  set_TokenURL : option string;
  set_Client : option (string * string);
  set_Scopes : option (list string);
  set_URL : option string;
  set_Tokens : option (list string);
  set_Insecure : option bool
}.

Definition NewConnectionBuilder : ConnectionBuilder :=
  {| set_Logger := None; set_TokenURL := None; set_Client := None;
     set_Scopes := None; set_URL := None; set_Tokens := None;
     set_Insecure := None |}.

(** What [Build] calls: [Load] of the configuration file, the builder of the
    SDK's logger, [builder.Build()] and [conn.Tokens(expiresIn)]. *)
Record Services : Type := {
  Load : result (option Config);
  NewOCMLogger : Logger -> result OCMLogger;
  BuildConnection : ConnectionBuilder -> result Connection;
  Tokens : Connection -> time.Duration -> error
}.

Variable sdk : Services.

(** The preparation of the SDK's builder in [Build]. *)
Definition prepare (logger : OCMLogger) (cfg : Config) : ConnectionBuilder :=
  let builder := NewConnectionBuilder in
  let builder :=
    {| set_Logger := Some logger; set_TokenURL := set_TokenURL builder;
       set_Client := set_Client builder; set_Scopes := set_Scopes builder;
       set_URL := set_URL builder; set_Tokens := set_Tokens builder;
       set_Insecure := set_Insecure builder |} in
  let builder :=
    if negb (String.eqb (TokenURL cfg) "") then
      {| set_Logger := set_Logger builder;
         set_TokenURL := Some (TokenURL cfg);
         set_Client := set_Client builder; set_Scopes := set_Scopes builder;
         set_URL := set_URL builder; set_Tokens := set_Tokens builder;
         set_Insecure := set_Insecure builder |}
    else builder in
  let builder :=
    if negb (String.eqb (ClientID cfg) "")
       || negb (String.eqb (ClientSecret cfg) "") then
      {| set_Logger := set_Logger builder;
         set_TokenURL := set_TokenURL builder;
         set_Client := Some (ClientID cfg, ClientSecret cfg);
         set_Scopes := set_Scopes builder;
         set_URL := set_URL builder; set_Tokens := set_Tokens builder;
         set_Insecure := set_Insecure builder |}
    else builder in
  let builder :=
    match Scopes cfg with
    | Some scopes =>
        {| set_Logger := set_Logger builder;
           set_TokenURL := set_TokenURL builder;
           set_Client := set_Client builder;
           set_Scopes := Some scopes;
           set_URL := set_URL builder; set_Tokens := set_Tokens builder;
           set_Insecure := set_Insecure builder |}
    | None => builder
    end in
  let builder :=
    if negb (String.eqb (URL cfg) "") then
      {| set_Logger := set_Logger builder;
         set_TokenURL := set_TokenURL builder;
         set_Client := set_Client builder; set_Scopes := set_Scopes builder;
         set_URL := Some (URL cfg); set_Tokens := set_Tokens builder;
         set_Insecure := set_Insecure builder |}
    else builder in
  let tokens : list string := [] in
  let tokens :=
    if negb (String.eqb (AccessToken cfg) "")
    then (tokens ++ [AccessToken cfg])%list else tokens in
  let tokens :=
    if negb (String.eqb (RefreshToken cfg) "")
    then (tokens ++ [RefreshToken cfg])%list else tokens in
  let builder :=
    if (0 <? List.length tokens)%nat then
      {| set_Logger := set_Logger builder;
         set_TokenURL := set_TokenURL builder;
         set_Client := set_Client builder; set_Scopes := set_Scopes builder;
         set_URL := set_URL builder; set_Tokens := Some tokens;
         set_Insecure := set_Insecure builder |}
    else builder in
  {| set_Logger := set_Logger builder;
     set_TokenURL := set_TokenURL builder;
     set_Client := set_Client builder; set_Scopes := set_Scopes builder;
     set_URL := set_URL builder; set_Tokens := set_Tokens builder;
     set_Insecure := Some (Insecure cfg) |}.

Definition errNotLoggedIn : string :=
  "Not logged in, run the 'rosa login' command".

Definition errNoToken : string :=
  "Error creating connection. Not able to get authentication token".

(** The configuration [Build] goes on with: the builder's, or the loaded
    one. *)
Definition configuration (b : ClientBuilder) : result Config :=
  match cfg b with
  | Some cfg => Ok cfg
  | None =>
      match Load sdk with
      | Err err => Err ("Failed to load config file: " ++ err)
      | Ok None => Err errNotLoggedIn
      | Ok (Some cfg) => Ok cfg
      end
  end.

Definition Build (b : ClientBuilder) : option Client * error :=
  match configuration b with
  | Err err => (None, Some err)
  | Ok cfg =>
      match logger b with
      | None => (None, Some "Logger is mandatory")
      | Some value =>
          match NewOCMLogger sdk value with
          | Err err => (None, Some err)
          | Ok logger =>
              let builder := prepare logger cfg in
              match BuildConnection sdk builder with
              | Err err => (None, Some err)
              | Ok conn =>
                  match Tokens sdk conn (10 * time.Minute) with
                  | Some _ => (None, Some errNoToken)
                  | None => (Some {| ocm := conn |}, None)
                  end
              end
          end
      end
  end.

End Client.

Arguments ocm {Connection} c.
Arguments logger {Logger} c.
Arguments cfg {Logger} c.
Arguments set_Logger {OCMLogger} c.
Arguments set_TokenURL {OCMLogger} c.
Arguments set_Client {OCMLogger} c.
Arguments set_Scopes {OCMLogger} c.
Arguments set_URL {OCMLogger} c.
Arguments set_Tokens {OCMLogger} c.
Arguments set_Insecure {OCMLogger} c.
Arguments Load {Logger OCMLogger Connection} s.
Arguments NewOCMLogger {Logger OCMLogger Connection} s _.
Arguments BuildConnection {Logger OCMLogger Connection} s _.
Arguments Tokens {Logger OCMLogger Connection} s _ _.
Arguments prepare {OCMLogger} logger cfg.
Arguments configuration {Logger OCMLogger Connection} sdk b.
Arguments Build {Logger OCMLogger Connection} sdk b.

(** The tokens of a configuration that are not empty, access token first. *)
Definition tokensOf (c : Config) : list string :=
  filter (fun token => negb (String.eqb token ""))
    [AccessToken c; RefreshToken c].

(** A configuration file that names no scope but has the empty list of
    them, and services that always answer. *)
Definition sampleConfig : Config :=
  {| TokenURL := ""; ClientID := ""; ClientSecret := "";
     Scopes := Some []; URL := "https://api.stage.openshift.com";
     AccessToken := ""; RefreshToken := "refresh-token";
     Insecure := false |}.

Definition sampleServices (loaded : option Config) (tokens : error)
  : Services unit unit unit :=
  {| Load := Ok loaded;
     NewOCMLogger := fun _ => Ok tt;
     BuildConnection := fun _ => Ok tt;
     Tokens := fun _ _ => tokens |}.

End ocm.

(** ** Sample worlds *)

Module sample.

Definition cluster (state : ClusterState) : Cluster :=
  {| cluster_ID := "1a2b3c";
     cluster_Name := "mycluster";
     cluster_DisplayName := "";
     cluster_ExternalID := "ext-1";
     cluster_State := state;
     cluster_Status := {| status_DNSReady := true;
                          status_ProvisionErrorMessage := "";
                          status_ProvisionErrorCode := "";
                          status_State := state |};
     cluster_BaseDomain := "example.org";
     cluster_Properties := [("creator_arn", "arn:aws:iam::42:user/me")];
     cluster_APIURL := "https://api.mycluster.example.org:6443";
     cluster_ConsoleURL := "https://console.mycluster.example.org";
     cluster_Nodes := {| nodes_Master := 3; nodes_Infra := 2;
                         nodes_Compute := 4;
                         nodes_AutoscaleCompute := None |};
     cluster_RegionID := "us-east-2";
     cluster_ChannelGroup := "stable";
     cluster_CreationTimestamp := 0 |}.

(** A world where everything answers and nothing fails, but for what the
    arguments say: the state of the cluster, the answer to adding the user
    [failing], and the URL of the connection. *)
Definition world (state : ClusterState) (failing : string) (url : string)
  : World :=
  {| reporterBuild := None;
     loggerBuild := None;
     awsClientBuild := None;
     awsGetCreator := Ok "arn:aws:iam::42:user/me";
     awsGetRegion := fun region =>
                       Ok (if String.eqb region "" then "us-east-1" else region);
     arnParse := fun _ => Ok "42";
     ocmBuild := None;
     ocmClose := None;
     ocmURL := url;
     fetchRegions := Ok ["us-east-1"; "us-east-2"];
     fetchVersions := Ok ["openshift-v4.3.10"; "openshift-v4.4.0"];
     fetchMachineTypes := Ok ["m5.xlarge"; "r5.xlarge"];
     createCluster := fun spec => Ok (cluster ClusterStatePending);
     getCluster := fun _ _ => Ok (cluster state);
     getIngresses := fun _ => ([], None);
     getScheduledUpgrade := fun _ => Ok None;
     newUser := fun username => Ok username;
     addUser := fun _ _ _ username =>
                  if String.eqb username failing then Some "forbidden"
                  else None;
     getAddOnParameters := fun _ => Ok [];
     installAddOn := fun _ _ _ _ => None;
     getIdentityProviders := fun _ => Ok [{| idp_ID := "idp1";
                                             idp_Name := "github-1" |}];
     deleteIdentityProvider := fun _ _ => None;
     interactiveEnabled := false;
     askString := fun input => Ok "";
     askOption := fun input => Ok "";
     askBool := fun input => Ok false;
     askInt := fun input => Ok 0;
     askIPNet := fun input => Ok emptyIPNet;
     getInput := fun _ => Ok "";
     confirm := fun _ => true;
     timeNow := 1600000000123456789;
     timeParse := fun layout s =>
                    if String.eqb s "2020-09-13T12:26:40Z"
                       && String.eqb layout time.RFC3339
                    then Ok 1600000000000000000
                    else Err "cannot parse";
     timeFormat := fun _ _ => "Sep 13 2020 12:26:40 UTC";
     regexpMatchString := fun _ _ => Ok true;
     ipNetString := fun _ => "10.0.0.0/16";
     propertiesCreatorARN := "creator_arn";
     logsClusterRun := fun _ => Returns tt |}.

Definition createArgs (name version machineType expirationTime : string)
  (expiration : time.Duration) : createcluster.Args :=
  {| createcluster.watch := false;
     createcluster.private := false;
     createcluster.multiAZ := false;
     createcluster.expirationDuration := expiration;
     createcluster.expirationTime := expirationTime;
     createcluster.name := name;
     createcluster.region := "us-east-2";
     createcluster.version := version;
     createcluster.computeMachineType := machineType;
     createcluster.computeNodes := 4;
     createcluster.hostPrefix := 0;
     createcluster.machineCIDR := emptyIPNet;
     createcluster.serviceCIDR := emptyIPNet;
     createcluster.podCIDR := emptyIPNet |}.

End sample.


(** ** Observations on runs *)

(** [post pre m Q]: after the events [pre], the piece [m] leaves a trace and
    an outcome that satisfy [Q]. *)
Definition post {A : Type} (pre : list Event) (m : Cmd A)
  (Q : list Event -> Outcome A -> Prop) : Prop :=
  Q (pre ++ fst m)%list (snd m).

(** An event that reports a failure. *)
Definition reported (e : Event) : Prop :=
  match e with
  | Errorf _ _ | Stderr _ => True
  | _ => False
  end.




(** The connection is closed when a piece returns, and is not when the
    process exits in it. *)
Definition closed_on_return {A : Type} (t : list Event) (o : Outcome A)
  : Prop :=
  (forall a, o = Returns a -> In (Send CloseConnection) t)
  /\ (forall code, o = Exits code -> ~ In (Send CloseConnection) t).

(** The requests of a trace, in order. *)
Fixpoint requests (t : list Event) : list Request :=
  match t with
  | [] => []
  | Send request :: rest => request :: requests rest
  | _ :: rest => requests rest
  end.

(** The list of versions [create cluster] works with, given the identifiers
    the API answered. *)
Definition versionsOf (ids : list string) : list string :=
  createcluster.collect (fun id => strings.Replace1 id "openshift-v" "") ids.

(** What has been checked of a cluster-creation request when [create
    cluster] sends it: every field is the flag's value, or in interactive
    mode the answer to its prompt; the name is a valid cluster key, the
    region is not empty, the version and the machine type have gone through
    their validation against the fetched lists, and the expiration through
    [validateExpiration]. *)
Definition Accepted (w : World) (args : createcluster.Args) (spec : Spec)
  : Prop :=
  createcluster.answer w (createcluster.name args) (askString w)
    createcluster.nameInput = Ok (spec_Name spec)
  /\ clusterprovider.IsValidClusterKey (spec_Name spec) = true
  /\ (exists region0 ids,
        awsGetRegion w (createcluster.region args) = Ok region0
        /\ fetchRegions w = Ok ids
        /\ createcluster.answer w region0 (askOption w)
             (createcluster.regionInput
                (createcluster.collect (fun id => id) ids))
           = Ok (spec_Region spec))
  /\ spec_Region spec <> ""
  /\ (exists ids v,
        fetchVersions w = Ok ids
        /\ createcluster.answer w (createcluster.version args) (askOption w)
             (createcluster.versionInput (versionsOf ids)) = Ok v
        /\ createcluster.validateVersion v (versionsOf ids)
           = (spec_Version spec, None))
  /\ (exists ids m,
        fetchMachineTypes w = Ok ids
        /\ createcluster.answer w (createcluster.computeMachineType args)
             (askOption w)
             (createcluster.machineTypeInput
                (createcluster.collect (fun id => id) ids)) = Ok m
        /\ createcluster.validateMachineType m
             (createcluster.collect (fun id => id) ids)
           = (spec_ComputeMachineType spec, None))
  /\ createcluster.validateExpiration w args = (spec_Expiration spec, None)
  /\ createcluster.answer w (createcluster.multiAZ args) (askBool w)
       createcluster.multiAZInput = Ok (spec_MultiAZ spec)
  /\ createcluster.answer w (createcluster.computeNodes args) (askInt w)
       createcluster.computeNodesInput = Ok (spec_ComputeNodes spec)
  /\ createcluster.answer w (createcluster.machineCIDR args) (askIPNet w)
       createcluster.machineCIDRInput = Ok (spec_MachineCIDR spec)
  /\ createcluster.answer w (createcluster.serviceCIDR args) (askIPNet w)
       createcluster.serviceCIDRInput = Ok (spec_ServiceCIDR spec)
  /\ createcluster.answer w (createcluster.podCIDR args) (askIPNet w)
       createcluster.podCIDRInput = Ok (spec_PodCIDR spec)
  /\ createcluster.answer w (createcluster.hostPrefix args) (askInt w)
       createcluster.hostPrefixInput = Ok (spec_HostPrefix spec)
  /\ (exists private,
        createcluster.answer w (createcluster.private args) (askBool w)
          createcluster.privateInput = Ok private
        /\ spec_Private spec = Some private).

(** The inputs [create cluster] validates and turns down: a name that is
    not a valid cluster key, an empty region, a version or a machine type
    that is given and is not in the fetched list, both expiration flags. The
    name, region, version and machine type are the flags' values, or in
    interactive mode the answers to their prompts. *)
Definition Rejected (w : World) (args : createcluster.Args) : Prop :=
  (exists name,
     createcluster.answer w (createcluster.name args) (askString w)
       createcluster.nameInput = Ok name
     /\ clusterprovider.IsValidClusterKey name = false)
  \/ (exists region0 ids,
        awsGetRegion w (createcluster.region args) = Ok region0
        /\ fetchRegions w = Ok ids
        /\ createcluster.answer w region0 (askOption w)
             (createcluster.regionInput
                (createcluster.collect (fun id => id) ids)) = Ok "")
  \/ (exists ids v,
        fetchVersions w = Ok ids
        /\ createcluster.answer w (createcluster.version args) (askOption w)
             (createcluster.versionInput (versionsOf ids)) = Ok v
        /\ v <> "" /\ ~ In v (versionsOf ids))
  \/ (exists ids m,
        fetchMachineTypes w = Ok ids
        /\ createcluster.answer w (createcluster.computeMachineType args)
             (askOption w)
             (createcluster.machineTypeInput
                (createcluster.collect (fun id => id) ids)) = Ok m
        /\ m <> "" /\ ~ In m (createcluster.collect (fun id => id) ids))
  \/ (createcluster.expirationTime args <> ""
      /\ createcluster.expirationDuration args <> 0).

(** * Properties *)

(** ** Strings and lists *)

Lemma append_empty_r (s : string) : s ++ "" = s.
Proof. induction s as [|c s IH]; simpl; [reflexivity | now rewrite IH]. Qed.

Lemma prefix_append (p r : string) : String.prefix p (p ++ r) = true.
Proof.
  induction p as [|c p IH]; simpl.
  - now destruct r.
  - destruct (ascii_dec c c) as [_|n]; [exact IH | now elim n].
Qed.

Lemma drop_append (p r : string) : strings.drop (String.length p) (p ++ r) = r.
Proof. induction p as [|c p IH]; simpl; [reflexivity | exact IH]. Qed.

(** Removing the first occurrence of a prefix removes the prefix. *)
Lemma Replace1_prefix (p r : string) : strings.Replace1 (p ++ r) p "" = r.
Proof.
  destruct p as [|c p].
  - simpl. destruct r; reflexivity.
  - cbn [strings.Replace1 append].
    change (String c (p ++ r)) with (String c p ++ r).
    rewrite prefix_append. simpl. apply drop_append.
Qed.

Lemma collect_map (f : string -> string) (ids : list string) :
  createcluster.collect f ids = map f ids.
Proof.
  unfold createcluster.collect.
  enough (H : forall acc,
             fold_left (fun l id => (l ++ [f id])%list) ids acc
             = (acc ++ map f ids)%list) by apply (H []).
  induction ids as [|id ids IH]; intro acc; simpl.
  - now rewrite app_nil_r.
  - rewrite IH, <- app_assoc. reflexivity.
Qed.

(** The membership loop finds exactly the elements of the list. *)
Lemma hasValue_In (x : string) (l : list string) :
  createcluster.hasValue x l = true <-> In x l.
Proof.
  unfold createcluster.hasValue.
  enough (H : forall acc,
             fold_left (fun has v => if String.eqb v x then true else has) l acc
             = true <-> acc = true \/ In x l).
  { rewrite H. intuition discriminate. }
  induction l as [|v l IH]; intro acc; simpl.
  - tauto.
  - rewrite IH. destruct (String.eqb_spec v x) as [->|n]; intuition congruence.
Qed.

Lemma hasValue_false (x : string) (l : list string) :
  createcluster.hasValue x l = false <-> ~ In x l.
Proof.
  rewrite <- hasValue_In. destruct (createcluster.hasValue x l); intuition congruence.
Qed.

Lemma validateVersion_known (v : string) (l : list string) :
  v <> "" -> In v l ->
  createcluster.validateVersion v l = ("openshift-v" ++ v, None).
Proof.
  intros Hv Hin. unfold createcluster.validateVersion.
  apply String.eqb_neq in Hv. rewrite Hv.
  apply hasValue_In in Hin. rewrite Hin. reflexivity.
Qed.

Lemma validateVersion_unknown (v : string) (l : list string) :
  v <> "" -> ~ In v l ->
  createcluster.validateVersion v l
  = (v, Some ("A valid version number must be specified" ++ nl ++
              "Valid versions: " ++ strings.Join l " ")).
Proof.
  intros Hv Hin. unfold createcluster.validateVersion.
  apply String.eqb_neq in Hv. rewrite Hv.
  apply hasValue_false in Hin. rewrite Hin. reflexivity.
Qed.

Lemma validateMachineType_unknown (m : string) (l : list string) :
  m <> "" -> ~ In m l ->
  createcluster.validateMachineType m l
  = (m, Some ("A valid machine type number must be specified" ++ nl ++
              "Valid machine types: " ++ strings.Join l " ")).
Proof.
  intros Hm Hin. unfold createcluster.validateMachineType.
  apply String.eqb_neq in Hm. rewrite Hm.
  apply hasValue_false in Hin. rewrite Hin. reflexivity.
Qed.

(** What an accepted version or machine type is. *)
Lemma validateVersion_accepts (v out : string) (l : list string) :
  createcluster.validateVersion v l = (out, None) ->
  (v = "" /\ out = "") \/ (v <> "" /\ In v l /\ out = "openshift-v" ++ v).
Proof.
  unfold createcluster.validateVersion.
  destruct (String.eqb_spec v "") as [->|Hv]; simpl.
  - intros [= <-]. now left.
  - destruct (createcluster.hasValue v l) eqn:Hhas; simpl; intros [= <-].
    right. apply hasValue_In in Hhas. auto.
Qed.

Lemma validateMachineType_accepts (m out : string) (l : list string) :
  createcluster.validateMachineType m l = (out, None) ->
  out = m /\ (m = "" \/ In m l).
Proof.
  unfold createcluster.validateMachineType.
  destruct (String.eqb_spec m "") as [->|Hm]; simpl.
  - intros [= <-]. auto.
  - destruct (createcluster.hasValue m l) eqn:Hhas; simpl; intros [= <-].
    apply hasValue_In in Hhas. auto.
Qed.

(** ** Rounding to the second *)

Lemma Round_Second_multiple (t : time.Time) :
  time.Round t time.Second mod time.Second = 0.
Proof.
  unfold time.Round, time.Add, time.Second.
  change (1000000000 <=? 0) with false. cbv iota zeta.
  pose proof (Z.div_mod t 1000000000 ltac:(lia)) as Hdm.
  destruct (t mod 1000000000 + t mod 1000000000 <? 1000000000).
  - replace (t + - (t mod 1000000000)) with (t / 1000000000 * 1000000000) by lia.
    apply Z.mod_mul. lia.
  - replace (t + (1000000000 - t mod 1000000000))
      with ((t / 1000000000 + 1) * 1000000000) by lia.
    apply Z.mod_mul. lia.
Qed.

Lemma Round_Second_nearest (t : time.Time) :
  2 * Z.abs (time.Round t time.Second - t) <= time.Second.
Proof.
  unfold time.Round, time.Add, time.Second.
  change (1000000000 <=? 0) with false. cbv iota zeta.
  pose proof (Z.mod_pos_bound t 1000000000 ltac:(lia)) as Hr.
  destruct (Z.ltb_spec (t mod 1000000000 + t mod 1000000000) 1000000000); lia.
Qed.

Lemma nonempty_length (s : string) :
  (0 <? Z.of_nat (String.length s)) = negb (String.eqb s "").
Proof. destruct s; reflexivity. Qed.

(** ** The expiration flags *)

(** C2. In [create cluster], [validateExpiration] returns the error of the
    two flags excluding each other exactly when both a non-empty
    expiration time and a non-zero duration are given, and no error apart
    from that one and the one of a date that does not parse; given the time
    alone it returns the time parsed as RFC3339 (with or without fractions
    of a second), or the error of the parse; given the duration alone it
    returns now plus the duration rounded to the nearest second; given none
    it returns the zero time. *)
Theorem validateExpiration_exclusive (w : World) (args : createcluster.Args) :
  let givenTime := createcluster.expirationTime args <> "" in
  let givenDuration := createcluster.expirationDuration args <> 0 in
  let got := createcluster.validateExpiration w args in
  (snd got = Some createcluster.errBothExpirations
   <-> givenTime /\ givenDuration)
  /\ (snd got <> None
      <-> (givenTime /\ givenDuration)
          \/ (givenTime /\ ~ givenDuration /\
              exists err,
                createcluster.parseRFC3339 w (createcluster.expirationTime args)
                = Err err))
  /\ (givenTime -> ~ givenDuration ->
      got = match createcluster.parseRFC3339 w
                    (createcluster.expirationTime args) with
            | Ok t => (t, None)
            | Err err =>
                (time.zero, Some ("Failed to parse expiration-time: " ++ err))
            end)
  /\ (~ givenTime -> givenDuration ->
      exists t,
        got = (t, None)
        /\ t = time.Round (time.Add (timeNow w)
                             (createcluster.expirationDuration args))
                 time.Second
        /\ t mod time.Second = 0
        /\ 2 * Z.abs (t - (timeNow w + createcluster.expirationDuration args))
           <= time.Second)
  /\ (~ givenTime -> ~ givenDuration -> got = (time.zero, None)).
Proof.
  cbv zeta. unfold createcluster.validateExpiration.
  rewrite nonempty_length.
  destruct (String.eqb_spec (createcluster.expirationTime args) "") as [Ht|Ht];
    destruct (Z.eqb_spec (createcluster.expirationDuration args) 0) as [Hd|Hd];
    cbn [negb andb fst snd].
  - repeat split; try tauto; try discriminate.
  - repeat split; try tauto; try discriminate.
    intros _ _. eexists. split; [reflexivity|]. split; [reflexivity|].
    split; [apply Round_Second_multiple | apply Round_Second_nearest].
  - destruct (createcluster.parseRFC3339 w (createcluster.expirationTime args))
      as [t|err] eqn:Hp; cbn [fst snd].
    + repeat split; try tauto; try discriminate.
      intros [[_ ?]|[_ [_ [err [=]]]]]; tauto.
    + repeat split; try tauto; try discriminate.
      intros _. right. repeat split; try tauto. now exists err.
  - repeat split; try tauto; try discriminate.
Qed.

Lemma validateExpiration_exclusive_witness :
  createcluster.validateExpiration (sample.world "ready" "" "")
    (sample.createArgs "mycluster" "" "" "2020-09-13T12:26:40Z" 0)
  = (1600000000000000000, None)
  /\ (exists t,
        createcluster.validateExpiration (sample.world "ready" "" "")
          (sample.createArgs "mycluster" "" "" "" 3600000000000) = (t, None)
        /\ t = 1600003600000000000)
  /\ snd (createcluster.validateExpiration (sample.world "ready" "" "")
            (sample.createArgs "mycluster" "" "" "2020-09-13T12:26:40Z"
               3600000000000))
     = Some createcluster.errBothExpirations.
Proof.
  split; [|split].
  - apply (validateExpiration_exclusive (sample.world "ready" "" "")
             (sample.createArgs "mycluster" "" "" "2020-09-13T12:26:40Z" 0));
      simpl; [discriminate | intro H; now apply H].
  - destruct (proj1 (proj2 (proj2 (proj2
               (validateExpiration_exclusive (sample.world "ready" "" "")
                  (sample.createArgs "mycluster" "" "" "" 3600000000000)))))
               ltac:(simpl; intro H; now apply H) ltac:(simpl; discriminate))
      as [t [H1 [H2 _]]].
    exists t. split; [exact H1 | rewrite H2; reflexivity].
  - apply (validateExpiration_exclusive (sample.world "ready" "" "")
             (sample.createArgs "mycluster" "" "" "2020-09-13T12:26:40Z"
                3600000000000)).
    simpl. split; discriminate.
Defined.

(** ** Versions: from the API to the request *)

(** C8. [getVersionList] removes the prefix [openshift-v] from the
    identifier of every fetched version, and [validateVersion] puts it back:
    every non-empty element [v] of the list is accepted as [openshift-v]
    followed by [v], so a fetched identifier with the prefix and something
    after it comes back as it was; the empty string is accepted and stays
    empty. *)
Theorem version_roundtrip (w : World) (ids : list string) :
  fetchVersions w = Ok ids ->
  exists versionList,
    createcluster.getVersionList w
    = ([Send GetVersions], Returns (versionList, None))
    /\ versionList
       = map (fun id => strings.Replace1 id "openshift-v" "") ids
    /\ (forall rest, In ("openshift-v" ++ rest) ids -> In rest versionList)
    /\ (forall v, v <> "" -> In v versionList ->
        createcluster.validateVersion v versionList
        = ("openshift-v" ++ v, None))
    /\ (forall rest, rest <> "" -> In ("openshift-v" ++ rest) ids ->
        createcluster.validateVersion rest versionList
        = ("openshift-v" ++ rest, None))
    /\ createcluster.validateVersion "" versionList = ("", None).
Proof.
  intro Hfetch.
  exists (map (fun id => strings.Replace1 id "openshift-v" "") ids).
  assert (Hstrip : forall rest, In ("openshift-v" ++ rest) ids ->
            In rest (map (fun id => strings.Replace1 id "openshift-v" "") ids)).
  { intros rest Hin. apply in_map_iff. exists ("openshift-v" ++ rest).
    split; [apply Replace1_prefix | exact Hin]. }
  repeat split.
  - unfold createcluster.getVersionList, send, emit, bind, ret.
    rewrite Hfetch, collect_map. reflexivity.
  - exact Hstrip.
  - intros v Hv Hin. now apply validateVersion_known.
  - intros rest Hrest Hin. apply validateVersion_known; auto.
Qed.

Lemma version_roundtrip_witness :
  exists versionList,
    createcluster.getVersionList (sample.world "ready" "" "")
    = ([Send GetVersions], Returns (versionList, None))
    /\ versionList = ["4.3.10"; "4.4.0"]
    /\ createcluster.validateVersion "4.4.0" versionList
       = ("openshift-v4.4.0", None).
Proof.
  destruct (version_roundtrip (sample.world "ready" "" "")
              ["openshift-v4.3.10"; "openshift-v4.4.0"] eq_refl)
    as [versionList [Hget [Hlist [_ [Hknown _]]]]].
  exists versionList. split; [exact Hget|]. split; [exact Hlist|].
  apply Hknown; [discriminate | rewrite Hlist; simpl; auto].
Defined.

(** ** The details link *)


(** ** The client builder *)

Section ClientBuild.

Context {Logger OCMLogger Connection : Type}.
Variable sdk : ocm.Services Logger OCMLogger Connection.

Lemma unless_Some {A : Type} (b : bool) (x v : A) :
  (if b then None else Some x) = Some v <-> v = x /\ b = false.
Proof.
  destruct b; split.
  - discriminate.
  - intros [_ H]. discriminate H.
  - intros [= <-]. now split.
  - intros [-> _]. reflexivity.
Qed.

(** What the prepared builder holds, property by property. *)
Lemma prepare_fields (l : OCMLogger) (c : ocm.Config) :
  ocm.prepare l c
  = {| ocm.set_Logger := Some l;
       ocm.set_TokenURL :=
         if String.eqb (ocm.TokenURL c) "" then None
         else Some (ocm.TokenURL c);
       ocm.set_Client :=
         if String.eqb (ocm.ClientID c) "" && String.eqb (ocm.ClientSecret c) ""
         then None else Some (ocm.ClientID c, ocm.ClientSecret c);
       ocm.set_Scopes := ocm.Scopes c;
       ocm.set_URL :=
         if String.eqb (ocm.URL c) "" then None else Some (ocm.URL c);
       ocm.set_Tokens :=
         match ocm.tokensOf c with
         | [] => None
         | tokens => Some tokens
         end;
       ocm.set_Insecure := Some (ocm.Insecure c) |}.
Proof.
  destruct c as [[|? ?] [|? ?] [|? ?] [?|] [|? ?] [|? ?] [|? ?] ?];
    vm_compute; reflexivity.
Qed.

Lemma Build_client (b : ocm.ClientBuilder Logger) (client : ocm.Client Connection) :
  fst (ocm.Build sdk b) = Some client ->
  snd (ocm.Build sdk b) = None
  /\ ocm.Tokens sdk (ocm.ocm client) (10 * time.Minute) = None
  /\ exists l c,
       ocm.configuration sdk b = Ok c
       /\ ocm.BuildConnection sdk (ocm.prepare l c) = Ok (ocm.ocm client).
Proof.
  unfold ocm.Build.
  destruct (ocm.configuration sdk b) as [c|err]; [|discriminate].
  destruct (ocm.logger b) as [lg|]; [|discriminate].
  destruct (ocm.NewOCMLogger sdk lg) as [l|err]; [|discriminate].
  destruct (ocm.BuildConnection sdk (ocm.prepare l c)) as [conn|err] eqn:Hconn;
    [|discriminate].
  destruct (ocm.Tokens sdk conn (10 * time.Minute)) eqn:Htok; [discriminate|].
  cbn [fst snd]. intros [= <-]. cbn [ocm.ocm]. eauto 6.
Qed.

(** C7, as the code has it. Without a configuration of its own [Build]
    loads the cached one, and fails with the error [Not logged in] when
    there is none. On the connection it sets the token URL and the URL when
    they are not empty, the client credentials when one of the two is not
    empty, the tokens that are not empty when there is one, and the scopes
    whenever the configuration has a list of them, be it empty. A client is
    returned only after the tokens have been obtained from the connection
    built so; when they cannot be, [Build] returns the error of the
    authentication token and no client. *)
Theorem Build_connection (b : ocm.ClientBuilder Logger) :
  (ocm.cfg b = None ->
   ocm.configuration sdk b
   = match ocm.Load sdk with
     | Err err => Err ("Failed to load config file: " ++ err)
     | Ok None => Err ocm.errNotLoggedIn
     | Ok (Some c) => Ok c
     end)
  /\ (ocm.cfg b = None -> ocm.Load sdk = Ok None ->
      ocm.Build sdk b = (None, Some ocm.errNotLoggedIn))
  /\ (forall (l : OCMLogger) (c : ocm.Config),
        let builder := ocm.prepare l c in
        (forall v, ocm.set_TokenURL builder = Some v
                   <-> v = ocm.TokenURL c /\ v <> "")
        /\ (forall v, ocm.set_Client builder = Some v
                      <-> v = (ocm.ClientID c, ocm.ClientSecret c)
                          /\ (ocm.ClientID c <> "" \/ ocm.ClientSecret c <> ""))
        /\ (forall v, ocm.set_Scopes builder = Some v
                      <-> ocm.Scopes c = Some v)
        /\ (forall v, ocm.set_URL builder = Some v
                      <-> v = ocm.URL c /\ v <> "")
        /\ (forall v, ocm.set_Tokens builder = Some v
                      <-> v = ocm.tokensOf c /\ v <> []))
  /\ (forall client, fst (ocm.Build sdk b) = Some client ->
      snd (ocm.Build sdk b) = None
      /\ ocm.Tokens sdk (ocm.ocm client) (10 * time.Minute) = None
      /\ exists l c,
           ocm.configuration sdk b = Ok c
           /\ ocm.BuildConnection sdk (ocm.prepare l c)
              = Ok (ocm.ocm client))
  /\ (forall c lg l conn,
        ocm.configuration sdk b = Ok c ->
        ocm.logger b = Some lg ->
        ocm.NewOCMLogger sdk lg = Ok l ->
        ocm.BuildConnection sdk (ocm.prepare l c) = Ok conn ->
        ocm.Tokens sdk conn (10 * time.Minute) <> None ->
        ocm.Build sdk b = (None, Some ocm.errNoToken)).
Proof.
  split; [|split; [|split; [|split]]].
  - intro Hcfg. unfold ocm.configuration. rewrite Hcfg. reflexivity.
  - intros Hcfg Hload. unfold ocm.Build, ocm.configuration.
    rewrite Hcfg, Hload. reflexivity.
  - intros l c. cbv zeta. rewrite prepare_fields.
    cbn [ocm.set_TokenURL ocm.set_Client ocm.set_Scopes ocm.set_URL
         ocm.set_Tokens].
    split; [|split; [|split; [|split]]]; intro v.
    + rewrite unless_Some, String.eqb_neq.
      split; intros [-> H]; auto.
    + rewrite unless_Some, andb_false_iff, !String.eqb_neq. reflexivity.
    + reflexivity.
    + rewrite unless_Some, String.eqb_neq.
      split; intros [-> H]; auto.
    + destruct (ocm.tokensOf c) as [|token tokens].
      * split; [discriminate | intros [-> H]; now elim H].
      * split; [now intros [= <-] | now intros [-> _]].
  - apply Build_client.
  - intros c lg l conn Hc Hlg Hl Hconn Htok. unfold ocm.Build.
    rewrite Hc, Hlg, Hl, Hconn.
    destruct (ocm.Tokens sdk conn (10 * time.Minute)); [reflexivity | contradiction].
Qed.

End ClientBuild.

Lemma Build_connection_witness :
  ocm.Build (ocm.sampleServices None None)
    {| ocm.logger := Some tt; ocm.cfg := None |}
  = (None, Some ocm.errNotLoggedIn)
  /\ ocm.Build (ocm.sampleServices (Some ocm.sampleConfig) (Some "expired"))
       {| ocm.logger := Some tt; ocm.cfg := None |}
     = (None, Some ocm.errNoToken)
  /\ ocm.set_Tokens (ocm.prepare tt ocm.sampleConfig) = Some ["refresh-token"].
Proof.
  split; [|split].
  - apply (Build_connection (ocm.sampleServices None None)
             {| ocm.logger := Some tt; ocm.cfg := None |}); reflexivity.
  - apply (proj2 (proj2 (proj2 (proj2
             (Build_connection
                (ocm.sampleServices (Some ocm.sampleConfig) (Some "expired"))
                {| ocm.logger := Some tt; ocm.cfg := None |}))))
             ocm.sampleConfig tt tt tt);
      try reflexivity; discriminate.
  - apply (Build_connection (ocm.sampleServices None None)
             {| ocm.logger := Some tt; ocm.cfg := None |}).
    split; [reflexivity | discriminate].
Defined.

(** C7 as the specification words it fails on the scopes: a configuration
    whose list of scopes is there but empty has them set on the connection,
    to the empty list. *)
Lemma Build_sets_empty_scopes :
  ocm.Scopes ocm.sampleConfig = Some []
  /\ ocm.set_Scopes (ocm.prepare tt ocm.sampleConfig) = Some [].
Proof. split; reflexivity. Qed.

(** ** Running a command step by step *)

Lemma post_run (m : Cmd unit) (Q : list Event -> Outcome unit -> Prop) :
  post [] m Q -> Q (fst m) (snd m).
Proof. exact (fun H => H). Qed.

Lemma post_ret {A : Type} (pre : list Event) (a : A) Q :
  Q pre (Returns a) -> post pre (ret a) Q.
Proof. unfold post, ret. cbn [fst snd]. now rewrite app_nil_r. Qed.

Lemma post_exit {A : Type} (pre : list Event) (code : Z)
  (Q : list Event -> Outcome A -> Prop) :
  Q pre (Exits code) -> post pre (os_Exit code) Q.
Proof. unfold post, os_Exit. cbn [fst snd]. now rewrite app_nil_r. Qed.

Lemma post_emit (pre : list Event) (e : Event) Q :
  Q (pre ++ [e])%list (Returns tt) -> post pre (emit e) Q.
Proof. exact (fun H => H). Qed.

Lemma post_outcome {A : Type} (pre : list Event) (o : Outcome A) Q :
  Q pre o -> post pre ([], o) Q.
Proof. unfold post. cbn [fst snd]. now rewrite app_nil_r. Qed.

Lemma post_bind {A B : Type} (pre : list Event) (m : Cmd A) (k : A -> Cmd B) Q :
  post pre m (fun t o => match o with
                         | Returns a => post t (k a) Q
                         | Exits code => Q t (Exits code)
                         end) ->
  post pre (bind m k) Q.
Proof.
  unfold post, bind. destruct m as [t [a|code]]; cbn [fst snd].
  - destruct (k a) as [t' o]. cbn [fst snd]. now rewrite app_assoc.
  - exact (fun H => H).
Qed.

Lemma post_defer {A : Type} (pre : list Event) (deferred : Cmd unit)
  (rest : Cmd A) Q :
  post pre rest (fun t o => match o with
                            | Returns a => Q (t ++ fst deferred)%list (Returns a)
                            | Exits code => Q t (Exits code)
                            end) ->
  post pre (defer deferred rest) Q.
Proof.
  unfold post, defer. destruct rest as [t [a|code]]; cbn [fst snd].
  - now rewrite app_assoc.
  - exact (fun H => H).
Qed.

(** A piece whose trace and outcome are known to satisfy [R], in front of
    the rest. *)
Lemma post_bind_known {A B : Type} (R : list Event -> Outcome A -> Prop)
  (pre : list Event) (m : Cmd A) (k : A -> Cmd B) Q :
  R (fst m) (snd m) ->
  (forall t o, R t o ->
     match o with
     | Returns a => post (pre ++ t) (k a) Q
     | Exits code => Q (pre ++ t)%list (Exits code)
     end) ->
  post pre (bind m k) Q.
Proof.
  intros Hm Hk. apply post_bind. unfold post at 1.
  specialize (Hk _ _ Hm). destruct (snd m); exact Hk.
Qed.

Create HintDb cmds.
#[local] Hint Unfold CreateReporterOrExit CreateLoggerOrExit awsCreatorOrExit
  ocmConnectionOrExit send
  createcluster.prompted createcluster.listOrExit
  createcluster.getRegionList createcluster.getVersionList
  createcluster.getMachineTypeList : cmds.

(** What the deferred closing of the connection adds to a trace. *)
Lemma closeConnection_trace (w : World) :
  fst (closeConnection w)
  = Send CloseConnection
    :: match ocmClose w with
       | Some err => [Errorf "Failed to close OCM connection: %v" [err]]
       | None => []
       end.
Proof. unfold closeConnection. destruct (ocmClose w); reflexivity. Qed.

(** One step of a run: the head of the program decides. *)
Ltac step :=
  lazymatch goal with
  | |- context [fst (closeConnection ?w)] =>
      rewrite (closeConnection_trace w); destruct (ocmClose w) eqn:?
  | |- match ?x with _ => _ end => destruct x eqn:?
  | |- post _ (bind _ _) _ => apply post_bind
  | |- post _ (defer _ _) _ => apply post_defer
  | |- post _ (ret _) _ => apply post_ret
  | |- post _ (os_Exit _) _ => apply post_exit
  | |- post _ (emit _) _ => apply post_emit
  | |- post _ ([], _) _ => apply post_outcome
  | |- post _ (match ?x with _ => _ end) _ => destruct x eqn:?
  | |- post _ (let _ := _ in _) _ => cbv zeta
  | |- post _ _ _ => progress autounfold with cmds
  end; cbv beta iota; cbn [fst snd].

Ltac steps := repeat step.

(** The leaves of a run: an event of a trace written out is one of its
    elements. *)
Ltac in_trace H :=
  cbn [In] in H; repeat (destruct H as [H|H]);
  try discriminate H; try contradiction.

(** ** [create cluster]: nothing is requested that has not been checked *)

(** Every path of [run]: a cluster-creation request that is sent has been
    accepted, and a run that sends none ends with status 1 right after
    reporting a failure. *)
Lemma create_run_paths (w : World) (args : createcluster.Args) :
  post [] (createcluster.run w args)
    (fun t o =>
       (forall spec, In (Send (CreateCluster spec)) t -> Accepted w args spec)
       /\ ((forall spec, ~ In (Send (CreateCluster spec)) t) ->
           o = Exits 1 /\ reported (last t (Stdout "")))).
Proof.
  unfold createcluster.run. steps.
  all: cbn [app].
  all: split;
    [ intros spec Hin; in_trace Hin
    | intro Hno;
      first [ split; [reflexivity | exact I]
            | exfalso; eapply Hno; cbn [In];
              repeat (first [left; reflexivity | right]) ] ].
  all: injection Hin as <-; unfold Accepted;
    cbn [spec_Name spec_Region spec_MultiAZ spec_Version spec_Expiration
         spec_ComputeMachineType spec_ComputeNodes spec_MachineCIDR
         spec_ServiceCIDR spec_PodCIDR spec_HostPrefix spec_Private].
  all: match goal with
       | H : negb _ = false |- _ => apply negb_false_iff in H
       end.
  all: match goal with
       | H : String.eqb _ "" = false |- _ => apply String.eqb_neq in H
       end.
  all: subst; repeat first [eassumption | reflexivity | split | eexists].
Qed.

Lemma validateExpiration_both (w : World) (args : createcluster.Args) :
  createcluster.expirationTime args <> "" ->
  createcluster.expirationDuration args <> 0 ->
  createcluster.validateExpiration w args
  = (time.zero, Some createcluster.errBothExpirations).
Proof.
  intros Ht Hd. unfold createcluster.validateExpiration.
  rewrite nonempty_length.
  apply String.eqb_neq in Ht. apply Z.eqb_neq in Hd.
  now rewrite Ht, Hd.
Qed.

(** A request that has been accepted was made from inputs that are not
    turned down. *)
Lemma Accepted_not_Rejected (w : World) (args : createcluster.Args)
  (spec : Spec) :
  Accepted w args spec -> ~ Rejected w args.
Proof.
  intros (Hname & Hvalid & (r0 & rids & Hr0 & Hrids & Hregion) & Hnonempty
          & (vids & v & Hvids & Hv & Hversion)
          & (mids & m & Hmids & Hm & Hmachine) & Hexp & _).
  intros [(name & Hn & Hbad)
         |[(r0' & rids' & Hr0' & Hrids' & Hregion')
          |[(vids' & v' & Hvids' & Hv' & Hne & Hnin)
           |[(mids' & m' & Hmids' & Hm' & Hne & Hnin)
            |[Ht Hd]]]]].
  - rewrite Hname in Hn. injection Hn as <-. congruence.
  - rewrite Hr0 in Hr0'. injection Hr0' as <-.
    rewrite Hrids in Hrids'. injection Hrids' as <-.
    rewrite Hregion in Hregion'. injection Hregion' as E. contradiction.
  - rewrite Hvids in Hvids'. injection Hvids' as <-.
    rewrite Hv in Hv'. injection Hv' as <-.
    rewrite (validateVersion_unknown _ _ Hne Hnin) in Hversion. discriminate.
  - rewrite Hmids in Hmids'. injection Hmids' as <-.
    rewrite Hm in Hm'. injection Hm' as <-.
    rewrite (validateMachineType_unknown _ _ Hne Hnin) in Hmachine.
    discriminate.
  - rewrite (validateExpiration_both w args Ht Hd) in Hexp. discriminate.
Qed.

Lemma create_run_accepts (w : World) (args : createcluster.Args) (spec : Spec) :
  In (Send (CreateCluster spec)) (trace (createcluster.run w args)) ->
  Accepted w args spec.
Proof. apply (post_run _ _ (create_run_paths w args)). Qed.

Lemma create_run_rejects (w : World) (args : createcluster.Args) :
  Rejected w args ->
  (forall spec, ~ In (Send (CreateCluster spec))
                    (trace (createcluster.run w args)))
  /\ status (createcluster.run w args) = 1
  /\ reported (last (trace (createcluster.run w args)) (Stdout "")).
Proof.
  intro Hrej.
  assert (Hno : forall spec, ~ In (Send (CreateCluster spec))
                                 (trace (createcluster.run w args))).
  { intros spec Hin. apply create_run_accepts in Hin.
    exact (Accepted_not_Rejected w args spec Hin Hrej). }
  split; [exact Hno|].
  destruct (proj2 (post_run _ _ (create_run_paths w args)) Hno) as [Hexit Hrep].
  unfold status. rewrite Hexit. split; [reflexivity | exact Hrep].
Qed.

(** C4. In [create cluster], an invalid cluster name, an empty region, an
    unknown version, an unknown machine type and expiration flags that
    exclude each other are turned down before the request that creates the
    cluster: the run sends no such request, reports a failure and exits with
    status 1 right after; and whenever the request is sent, its content has
    gone through all of these validations. *)
Theorem create_validation_precedes_request (w : World)
  (args : createcluster.Args) :
  (Rejected w args ->
   (forall spec, ~ In (Send (CreateCluster spec))
                     (trace (createcluster.run w args)))
   /\ status (createcluster.run w args) = 1
   /\ reported (last (trace (createcluster.run w args)) (Stdout "")))
  /\ (forall spec,
        In (Send (CreateCluster spec)) (trace (createcluster.run w args)) ->
        Accepted w args spec /\ ~ Rejected w args).
Proof.
  split.
  - apply create_run_rejects.
  - intros spec Hin. apply create_run_accepts in Hin.
    split; [exact Hin | exact (Accepted_not_Rejected w args spec Hin)].
Qed.

Lemma create_validation_precedes_request_witness :
  status (createcluster.run (sample.world "ready" "" "")
            (sample.createArgs "my cluster" "4.3.10" "" "" 0)) = 1
  /\ status (createcluster.run (sample.world "ready" "" "")
               (sample.createArgs "mycluster" "4.3.10" "m5.xlarge"
                  "2020-09-13T12:26:40Z" 3600000000000)) = 1.
Proof.
  assert (Hname : Rejected (sample.world "ready" "" "")
                    (sample.createArgs "my cluster" "4.3.10" "" "" 0)).
  { left. exists "my cluster". split; reflexivity. }
  assert (Hboth : Rejected (sample.world "ready" "" "")
                    (sample.createArgs "mycluster" "4.3.10" "m5.xlarge"
                       "2020-09-13T12:26:40Z" 3600000000000)).
  { do 4 right. split; discriminate. }
  split.
  - exact (proj1 (proj2 (proj1 (create_validation_precedes_request _ _)
                           Hname))).
  - exact (proj1 (proj2 (proj1 (create_validation_precedes_request _ _)
                           Hboth))).
Defined.

(** C3. [validateVersion] and [validateMachineType] return an error that
    lists the valid values for every non-empty value that is not in the list
    they are given; and when the version or the machine type given to
    [create cluster] (the flag, or the answer to the prompt) is not empty
    and not in the list fetched from the API, the command sends no request
    to create the cluster and exits with status 1. *)
Theorem unknown_values_rejected (w : World) (args : createcluster.Args) :
  (forall v l, v <> "" -> ~ In v l ->
     createcluster.validateVersion v l
     = (v, Some ("A valid version number must be specified" ++ nl ++
                 "Valid versions: " ++ strings.Join l " ")))
  /\ (forall m l, m <> "" -> ~ In m l ->
        createcluster.validateMachineType m l
        = (m, Some ("A valid machine type number must be specified" ++ nl ++
                    "Valid machine types: " ++ strings.Join l " ")))
  /\ (forall ids v,
        fetchVersions w = Ok ids ->
        createcluster.answer w (createcluster.version args) (askOption w)
          (createcluster.versionInput (versionsOf ids)) = Ok v ->
        v <> "" -> ~ In v (versionsOf ids) ->
        status (createcluster.run w args) = 1
        /\ forall spec, ~ In (Send (CreateCluster spec))
                            (trace (createcluster.run w args)))
  /\ (forall ids m,
        fetchMachineTypes w = Ok ids ->
        createcluster.answer w (createcluster.computeMachineType args)
          (askOption w)
          (createcluster.machineTypeInput
             (createcluster.collect (fun id => id) ids)) = Ok m ->
        m <> "" -> ~ In m (createcluster.collect (fun id => id) ids) ->
        status (createcluster.run w args) = 1
        /\ forall spec, ~ In (Send (CreateCluster spec))
                            (trace (createcluster.run w args))).
Proof.
  split; [exact validateVersion_unknown|].
  split; [exact validateMachineType_unknown|].
  split.
  - intros ids v Hids Hv Hne Hnin.
    destruct (create_run_rejects w args) as (Hno & Hstatus & _).
    { right; right; left. exists ids, v. auto. }
    auto.
  - intros ids m Hids Hm Hne Hnin.
    destruct (create_run_rejects w args) as (Hno & Hstatus & _).
    { right; right; right; left. exists ids, m. auto. }
    auto.
Qed.

Lemma unknown_values_rejected_witness :
  fst (createcluster.validateVersion "9.9" ["4.3.10"; "4.4.0"]) = "9.9"
  /\ snd (createcluster.validateVersion "9.9" ["4.3.10"; "4.4.0"]) <> None
  /\ status (createcluster.run (sample.world "ready" "" "")
               (sample.createArgs "mycluster" "9.9" "" "" 0)) = 1
  /\ status (createcluster.run (sample.world "ready" "" "")
               (sample.createArgs "mycluster" "4.4.0" "t2.nano" "" 0)) = 1.
Proof.
  pose proof (unknown_values_rejected (sample.world "ready" "" "")
                (sample.createArgs "mycluster" "9.9" "" "" 0))
    as (Hversion & _ & Hrun & _).
  pose proof (unknown_values_rejected (sample.world "ready" "" "")
                (sample.createArgs "mycluster" "4.4.0" "t2.nano" "" 0))
    as (_ & _ & _ & Hrun').
  assert (Hnin : ~ In "9.9" ["4.3.10"; "4.4.0"]).
  { simpl. intros [H|[H|[]]]; discriminate H. }
  split; [|split; [|split]].
  - rewrite (Hversion "9.9" ["4.3.10"; "4.4.0"]); [reflexivity | discriminate | exact Hnin].
  - rewrite (Hversion "9.9" ["4.3.10"; "4.4.0"]); [discriminate | discriminate | exact Hnin].
  - apply (Hrun ["openshift-v4.3.10"; "openshift-v4.4.0"] "9.9");
      [reflexivity | reflexivity | discriminate | exact Hnin].
  - apply (Hrun' ["m5.xlarge"; "r5.xlarge"] "t2.nano");
      [reflexivity | reflexivity | discriminate |].
    simpl. intros [H|[H|[]]]; discriminate H.
Defined.

(** ** The cluster key *)

Lemma IsValidClusterKey_chars (key : string) :
  clusterprovider.IsValidClusterKey key = true
  <-> Forall (fun c => clusterprovider.is_key_char c = true)
        (list_ascii_of_string key).
Proof.
  induction key as [|c key IH]; simpl.
  - split; [constructor | reflexivity].
  - rewrite andb_true_iff, IH. split.
    + intros [Hc Hkey]. now constructor.
    + intro H. inversion H; subst. now split.
Qed.

(** The characters of a key: a letter, a digit, a dash or an underscore, by
    their codes. *)
Lemma is_key_char_spec (c : ascii) :
  clusterprovider.is_key_char c = true
  <-> (let n := nat_of_ascii c in
       (65 <= n <= 90)%nat \/ (97 <= n <= 122)%nat \/ (48 <= n <= 57)%nat
       \/ c = "-"%char \/ c = "_"%char).
Proof.
  unfold clusterprovider.is_key_char, clusterprovider.is_letter,
    clusterprovider.is_digit. cbv zeta.
  rewrite !orb_true_iff, !andb_true_iff, !Nat.leb_le, !Ascii.eqb_eq.
  tauto.
Qed.

Lemma invalid_key_nonempty (key : string) :
  clusterprovider.IsValidClusterKey key = false -> String.eqb key "" = false.
Proof. destruct key; [discriminate | reflexivity]. Qed.
(** C1, as the code has it. A cluster key is accepted exactly when all its
    characters are letters, digits, dashes or underscores. Given a key that
    is not, [describe cluster], [install addon], [delete idp] and [create
    user] do nothing but report it with the message that states this rule,
    and exit with status 1, before any request; [create cluster] checks the
    name of the cluster after the connection to OCM has been asked for, and
    reports an invalid one as [Expected a valid cluster name] before it
    exits with status 1. *)
Theorem invalid_cluster_key_rejected (w : World) (key : string) :
  (clusterprovider.IsValidClusterKey key = true
   <-> forall c, In c (list_ascii_of_string key) ->
         let n := nat_of_ascii c in
         (65 <= n <= 90)%nat \/ (97 <= n <= 122)%nat \/ (48 <= n <= 57)%nat
         \/ c = "-"%char \/ c = "_"%char)
  /\ (reporterBuild w = None -> loggerBuild w = None ->
      clusterprovider.IsValidClusterKey key = false ->
      let rejected : Cmd unit :=
        ([Errorf invalidClusterKeyFormat [key]], Exits 1) in
      (forall argv,
         describecluster.run w {| describecluster.clusterKey := key |} argv
         = rejected)
      /\ describecluster.run w {| describecluster.clusterKey := "" |} [key]
         = rejected
      /\ (forall addOnID, addOnID <> "" ->
            installaddon.run w {| installaddon.clusterKey := key |} [addOnID]
            = rejected)
      /\ (forall idpName,
            deleteidp.run w {| deleteidp.clusterKey := key |} idpName
            = rejected)
      /\ (forall clusterAdmins dedicatedAdmins,
            createuser.run w
              {| createuser.clusterKey := key;
                 createuser.clusterAdmins := clusterAdmins;
                 createuser.dedicatedAdmins := dedicatedAdmins |}
            = rejected)
      /\ (forall args,
            createcluster.answer w (createcluster.name args) (askString w)
              createcluster.nameInput = Ok key ->
            ocmBuild w = None ->
            createcluster.run w args
            = ((Send NewOCMConnection
                :: (if interactiveEnabled w
                    then [Infof ("Interactive mode enabled." ++ nl ++
                                 "Any optional fields can be left empty and a default will be selected.") []]
                    else [])
                ++ [Errorf "Expected a valid cluster name" []])%list,
               Exits 1))).
Proof.
  split.
  - rewrite IsValidClusterKey_chars, Forall_forall.
    split; intros H c Hc.
    + apply (proj1 (is_key_char_spec c)). exact (H c Hc).
    + apply (proj2 (is_key_char_spec c)). exact (H c Hc).
  - intros Hrep Hlog Hkey. cbv zeta.
    pose proof (invalid_key_nonempty key Hkey) as Hne.
    repeat split.
    + intro argv. unfold describecluster.run, CreateReporterOrExit, CreateLoggerOrExit.
      rewrite Hrep, Hlog. cbn [describecluster.clusterKey]. rewrite Hne.
      cbn. rewrite Hkey. reflexivity.
    + unfold describecluster.run, CreateReporterOrExit, CreateLoggerOrExit.
      rewrite Hrep, Hlog. cbn. rewrite Hkey. reflexivity.
    + intros addOnID Hid. apply String.eqb_neq in Hid.
      unfold installaddon.run, CreateReporterOrExit, CreateLoggerOrExit.
      rewrite Hrep, Hlog. cbn. rewrite Hid. cbn. rewrite Hkey. reflexivity.
    + intro idpName.
      unfold deleteidp.run, CreateReporterOrExit, CreateLoggerOrExit.
      rewrite Hrep, Hlog. cbn. rewrite Hkey. reflexivity.
    + intros clusterAdmins dedicatedAdmins.
      unfold createuser.run.
      rewrite Hrep, Hlog. cbn. rewrite Hkey. reflexivity.
    + intros args Hname Hocm.
      unfold createcluster.run, CreateReporterOrExit, CreateLoggerOrExit,
        ocmConnectionOrExit, createcluster.prompted.
      rewrite Hrep, Hlog, Hocm, Hname.
      destruct (interactiveEnabled w); cbn; rewrite Hkey; reflexivity.
Qed.

Lemma invalid_cluster_key_rejected_witness :
  describecluster.run (sample.world "ready" "" "")
    {| describecluster.clusterKey := "my cluster" |} []
  = ([Errorf invalidClusterKeyFormat ["my cluster"]], Exits 1)
  /\ createuser.run (sample.world "ready" "" "")
       {| createuser.clusterKey := "my cluster";
          createuser.clusterAdmins := "alice";
          createuser.dedicatedAdmins := "" |}
     = ([Errorf invalidClusterKeyFormat ["my cluster"]], Exits 1).
Proof.
  split;
    apply (invalid_cluster_key_rejected (sample.world "ready" "" "")
             "my cluster"); reflexivity.
Defined.

(** C1 as the specification words it fails for [create cluster]: the name
    is checked after the connection to OCM has been asked for, and an
    invalid name is reported with a message that does not state the rule on
    the characters. *)
Lemma create_cluster_reports_name_otherwise :
  clusterprovider.IsValidClusterKey "my cluster" = false
  /\ createcluster.run (sample.world "ready" "" "")
       (sample.createArgs "my cluster" "" "" "" 0)
     = ([Send NewOCMConnection; Errorf "Expected a valid cluster name" []],
        Exits 1)
  /\ ~ In (Errorf invalidClusterKeyFormat ["my cluster"])
         (trace (createcluster.run (sample.world "ready" "" "")
                   (sample.createArgs "my cluster" "" "" "" 0))).
Proof.
  split; [reflexivity|]. split; [reflexivity|].
  intro H. in_trace H.
Qed.


(** ** Clusters that are not ready *)

(** C9. [install addon] and [create user] refuse a cluster that is not
    ready: when the cluster they fetch is in another state, they report that
    it is not yet ready and exit with status 1; the requests they have sent
    by then are those that lead to the cluster, and none installs an add-on
    or adds a user to a group. *)
Theorem not_ready_cluster_refused (w : World) (key arn : string) (c : Cluster) :
  reporterBuild w = None -> loggerBuild w = None ->
  clusterprovider.IsValidClusterKey key = true ->
  awsClientBuild w = None -> awsGetCreator w = Ok arn ->
  ocmBuild w = None ->
  getCluster w key arn = Ok c ->
  cluster_State c <> ClusterStateReady ->
  (forall addOnID, addOnID <> "" ->
     installaddon.run w {| installaddon.clusterKey := key |} [addOnID]
     = ([Send NewAWSClient; Send GetCreator; Send NewOCMConnection;
         Debugf "Loading cluster '%s'" [key];
         Send (GetCluster key arn);
         Errorf "Cluster '%s' is not yet ready" [key]],
        Exits 1))
  /\ (forall clusterAdmins dedicatedAdmins,
        createuser.run w
          {| createuser.clusterKey := key;
             createuser.clusterAdmins := clusterAdmins;
             createuser.dedicatedAdmins := dedicatedAdmins |}
        = ([Send NewAWSClient; Send GetCreator; Send NewOCMConnection;
            Infof "Loading cluster '%s'" [key];
            Send (GetCluster key arn);
            Errorf "Cluster '%s' is not yet ready" [key]],
           Exits 1)).
Proof.
  intros Hrep Hlog Hkey Haws Hcreator Hocm Hget Hstate.
  apply String.eqb_neq in Hstate.
  split.
  - intros addOnID Hid. apply String.eqb_neq in Hid.
    unfold installaddon.run, CreateReporterOrExit, CreateLoggerOrExit,
      awsCreatorOrExit, ocmConnectionOrExit, send.
    rewrite Hrep, Hlog, Haws, Hcreator, Hocm. cbn. rewrite Hid. cbn.
    rewrite Hkey. cbn. rewrite Hget. cbn. rewrite Hstate. reflexivity.
  - intros clusterAdmins dedicatedAdmins.
    unfold createuser.run, awsCreatorOrExit, ocmConnectionOrExit, send.
    rewrite Hrep, Hlog, Haws, Hcreator, Hocm. cbn.
    rewrite Hkey. cbn. rewrite Hget. cbn. rewrite Hstate. reflexivity.
Qed.

Lemma not_ready_cluster_refused_witness :
  status (installaddon.run (sample.world "installing" "" "")
            {| installaddon.clusterKey := "mycluster" |}
            ["codeready-workspaces"]) = 1
  /\ status (createuser.run (sample.world "installing" "" "")
               {| createuser.clusterKey := "mycluster";
                  createuser.clusterAdmins := "alice";
                  createuser.dedicatedAdmins := "" |}) = 1.
Proof.
  destruct (not_ready_cluster_refused (sample.world "installing" "" "")
              "mycluster" "arn:aws:iam::42:user/me"
              (sample.cluster "installing")
              eq_refl eq_refl eq_refl eq_refl eq_refl eq_refl eq_refl
              ltac:(discriminate)) as [Haddon Huser].
  split.
  - rewrite (Haddon "codeready-workspaces" ltac:(discriminate)). reflexivity.
  - rewrite (Huser "alice" ""). reflexivity.
Defined.

(** ** The loops over usernames *)

Lemma requests_app (t t' : list Event) :
  requests (t ++ t') = (requests t ++ requests t')%list.
Proof.
  induction t as [|e t IH]; [reflexivity|].
  destruct e; simpl; rewrite IH; reflexivity.
Qed.

Lemma bind_returns {A B : Type} (m : Cmd A) (k : A -> Cmd B) (a : A) :
  snd m = Returns a ->
  bind m k = ((fst m ++ fst (k a))%list, snd (k a)).
Proof.
  destruct m as [t o]. cbn [snd fst]. intros ->. unfold bind.
  now destruct (k a).
Qed.

(** What one username adds to the trace of a loop. *)
Lemma addUsers_cons (w : World) (clusterKey clusterID role : string)
  (position : nat) (username : string) (rest : list string) :
  fst (createuser.addUsers w clusterKey clusterID role position
         (username :: rest))
  = (fst (createuser.addUsers w clusterKey clusterID role position [username])
     ++ fst (createuser.addUsers w clusterKey clusterID role (S position) rest))%list
  /\ snd (createuser.addUsers w clusterKey clusterID role position
            (username :: rest))
     = snd (createuser.addUsers w clusterKey clusterID role (S position) rest).
Proof.
  cbn [createuser.addUsers].
  destruct (newUser w username) as [user|err]; cbn.
  - destruct (addUser w clusterID (role ++ "s") position user); cbn;
      destruct (createuser.addUsers w clusterKey clusterID role (S position) rest);
      cbn; rewrite ?app_nil_r; split; reflexivity.
  - destruct (createuser.addUsers w clusterKey clusterID role (S position) rest);
      cbn; rewrite ?app_nil_r; split; reflexivity.
Qed.

Lemma addUsers_returns (w : World) (clusterKey clusterID role : string)
  (usernames : list string) (position : nat) :
  snd (createuser.addUsers w clusterKey clusterID role position usernames)
  = Returns tt.
Proof.
  revert position. induction usernames as [|username rest IH]; intro position.
  - reflexivity.
  - rewrite (proj2 (addUsers_cons w clusterKey clusterID role position
                      username rest)). apply IH.
Qed.

Lemma addUsers_requests (w : World) (clusterKey clusterID role : string)
  (usernames : list string) (position : nat) :
  requests (fst (createuser.addUsers w clusterKey clusterID role position
                   usernames))
  = createuser.additions w clusterID role usernames.
Proof.
  revert position. induction usernames as [|username rest IH]; intro position.
  - reflexivity.
  - rewrite (proj1 (addUsers_cons w clusterKey clusterID role position
                      username rest)), requests_app, IH.
    cbn [createuser.additions flat_map createuser.addUsers]. f_equal.
    destruct (newUser w username) as [user|err]; cbn; [|reflexivity].
    destruct (addUser w clusterID (role ++ "s") position user); reflexivity.
Qed.

Ltac step_users :=
  lazymatch goal with
  | |- post _ (createuser.addUsers _ _ _ _ _ _) _ =>
      unfold post at 1; rewrite addUsers_returns; cbv beta iota
  | _ => step
  end.

(** C5. In [create user], each loop goes through the usernames of its
    comma-separated list one at a time, in the order of the list: what a
    username adds to the trace comes before what the next ones add, it holds
    at most one request, and whether the user cannot be built or cannot be
    added, the loop goes on with the next username and returns at the end
    of the list. A run that reaches the loops sends the requests for the
    cluster-admins, then those for the dedicated-admins, each username
    once, and ends with status 0. *)
Theorem usernames_one_by_one (w : World) (key arn : string) (c : Cluster)
  (clusterAdmins dedicatedAdmins : string) :
  reporterBuild w = None -> loggerBuild w = None ->
  clusterprovider.IsValidClusterKey key = true ->
  awsClientBuild w = None -> awsGetCreator w = Ok arn ->
  ocmBuild w = None ->
  getCluster w key arn = Ok c ->
  cluster_State c = ClusterStateReady ->
  clusterAdmins <> "" \/ dedicatedAdmins <> "" ->
  let r := createuser.run w
             {| createuser.clusterKey := key;
                createuser.clusterAdmins := clusterAdmins;
                createuser.dedicatedAdmins := dedicatedAdmins |} in
  (forall role position username rest,
     let loop := createuser.addUsers w key (cluster_ID c) role in
     fst (loop position (username :: rest))
     = (fst (loop position [username]) ++ fst (loop (S position) rest))%list
     /\ snd (loop position (username :: rest)) = Returns tt
     /\ (List.length (requests (fst (loop position [username]))) <= 1)%nat)
  /\ status r = 0
  /\ requests (trace r)
     = ([NewAWSClient; GetCreator; NewOCMConnection; GetCluster key arn]
        ++ (if String.eqb clusterAdmins "" then []
            else createuser.additions w (cluster_ID c) "cluster-admin"
                   (strings.Split clusterAdmins))
        ++ (if String.eqb dedicatedAdmins "" then []
            else createuser.additions w (cluster_ID c) "dedicated-admin"
                   (strings.Split dedicatedAdmins))
        ++ [CloseConnection])%list.
Proof.
  intros Hrep Hlog Hkey Haws Hcreator Hocm Hget Hstate Hadmins. cbv zeta.
  split.
  { intros role position username rest.
    split; [apply addUsers_cons|]. split; [apply addUsers_returns|].
    rewrite addUsers_requests. unfold createuser.additions. cbn [flat_map].
    destruct (newUser w username); cbn; lia. }
  unfold status, trace.
  apply (post_run _ (fun t o =>
           match o with Returns _ => 0 | Exits code => code end = 0
           /\ requests t = _)).
  unfold createuser.run. autounfold with cmds.
  cbn [createuser.clusterKey createuser.clusterAdmins
       createuser.dedicatedAdmins].
  cbv zeta. rewrite Hrep, Hlog, Hkey, Haws, Hcreator, Hocm.
  destruct (String.eqb clusterAdmins "") eqn:Eca;
    destruct (String.eqb dedicatedAdmins "") eqn:Eda;
    [ apply String.eqb_eq in Eca; apply String.eqb_eq in Eda;
      destruct Hadmins; contradiction | | | ].
  all: cbn [andb negb]; cbv beta iota; repeat step_users.
  all: try congruence.
  all: match goal with
       | H : getCluster _ _ _ = Ok ?a |- _ =>
           is_var a; assert (a = c) by congruence; subst a
       end.
  all: try match goal with
       | H : negb (String.eqb (cluster_State _) _) = true |- _ =>
           rewrite Hstate in H; discriminate H
       end.
  all: rewrite ?Eca, ?Eda in *; cbn [andb negb] in *; try congruence.
  all: split; [reflexivity|];
    rewrite ?requests_app, ?addUsers_requests; cbn [requests];
    rewrite <- ?app_assoc; reflexivity.
Qed.

Lemma usernames_one_by_one_witness :
  status (createuser.run (sample.world "ready" "bob" "")
            {| createuser.clusterKey := "mycluster";
               createuser.clusterAdmins := "alice,bob,carol";
               createuser.dedicatedAdmins := "dave" |}) = 0
  /\ requests (trace (createuser.run (sample.world "ready" "bob" "")
                        {| createuser.clusterKey := "mycluster";
                           createuser.clusterAdmins := "alice,bob,carol";
                           createuser.dedicatedAdmins := "dave" |}))
     = [NewAWSClient; GetCreator; NewOCMConnection;
        GetCluster "mycluster" "arn:aws:iam::42:user/me";
        AddUser "1a2b3c" "cluster-admins" "alice";
        AddUser "1a2b3c" "cluster-admins" "bob";
        AddUser "1a2b3c" "cluster-admins" "carol";
        AddUser "1a2b3c" "dedicated-admins" "dave";
        CloseConnection].
Proof.
  assert (Hadmins : "alice,bob,carol" <> "" \/ "dave" <> "")
    by (left; discriminate).
  destruct (usernames_one_by_one (sample.world "ready" "bob" "")
              "mycluster" "arn:aws:iam::42:user/me" (sample.cluster "ready")
              "alice,bob,carol" "dave"
              eq_refl eq_refl eq_refl eq_refl eq_refl eq_refl eq_refl eq_refl
              Hadmins)
    as (_ & Hstatus & Hrequests).
  split; [exact Hstatus | exact Hrequests].
Defined.


(** ** Exit codes *)



Lemma post_eachParameter (w : World) (parameters : list AddOnParameter) :
  forall (params : list AddOnParam) (pre : list Event)
         (Q : list Event -> Outcome (list AddOnParam) -> Prop),
    (forall format args, Q (pre ++ [Errorf format args])%list (Exits 1)) ->
    (forall params', Q pre (Returns params')) ->
    post pre (installaddon.eachParameter w parameters params) Q.
Proof.
  induction parameters as [|param rest IH]; intros params pre Q Hexit Hret.
  - cbn [installaddon.eachParameter]. apply post_ret, Hret.
  - cbn [installaddon.eachParameter]. cbv zeta. steps.
    all: first [apply Hexit | now apply IH].
Qed.














(** ** The details page *)





(** * Further properties of the code *)

(** ** Splitting a list of usernames *)

Lemma append_assoc (a b c : string) : (a ++ b) ++ c = a ++ b ++ c.
Proof. induction a as [|x a IH]; simpl; [reflexivity | now rewrite IH]. Qed.

Lemma rev_string_append (acc : list ascii) (s : string) :
  strings.rev_string acc s = strings.rev_string acc "" ++ s.
Proof.
  revert s. induction acc as [|c acc IH]; intro s; simpl; [reflexivity|].
  rewrite IH, (IH (String c "")), append_assoc. reflexivity.
Qed.

Lemma commas_append (a b : string) :
  strings.commas (a ++ b) = (strings.commas a + strings.commas b)%nat.
Proof.
  induction a as [|c a IH]; simpl; [reflexivity|].
  destruct (Ascii.eqb c ","); rewrite IH; reflexivity.
Qed.

Lemma split_comma_cons (cur : list ascii) (s : string) :
  exists piece rest, strings.split_comma cur s = piece :: rest.
Proof.
  revert cur. induction s as [|c s IH]; intro cur; simpl.
  - eauto.
  - destruct (Ascii.eqb c ","); [eauto | apply IH].
Qed.

Lemma concat_two (sep a b : string) (l : list string) :
  String.concat sep (a :: b :: l) = a ++ sep ++ String.concat sep (b :: l).
Proof. reflexivity. Qed.

Lemma split_comma_spec (s : string) :
  forall cur,
    strings.commas (strings.rev_string cur "") = O ->
    String.concat "," (strings.split_comma cur s)
    = strings.rev_string cur "" ++ s
    /\ List.length (strings.split_comma cur s) = S (strings.commas s)
    /\ Forall (fun piece => strings.commas piece = O)
         (strings.split_comma cur s).
Proof.
  induction s as [|c s IH]; intros cur Hcur.
  - simpl. rewrite append_empty_r. repeat split. now constructor.
  - cbn [strings.split_comma strings.commas].
    destruct (Ascii.eqb_spec c ",") as [->|Hc].
    + destruct (IH [] eq_refl) as (Hcat & Hlen & Hall).
      destruct (split_comma_cons [] s) as (piece & rest & E).
      repeat split.
      * rewrite E, (concat_two "," _ piece rest), <- E, Hcat. reflexivity.
      * cbn [List.length]. now rewrite Hlen.
      * now constructor.
    + assert (Hcur' : strings.commas (strings.rev_string (c :: cur) "") = O).
      { cbn [strings.rev_string]. rewrite rev_string_append, commas_append, Hcur.
        simpl. apply Ascii.eqb_neq in Hc. now rewrite Hc. }
      destruct (IH (c :: cur) Hcur') as (Hcat & Hlen & Hall).
      repeat split; [|exact Hlen | exact Hall].
      rewrite Hcat. cbn [strings.rev_string].
      rewrite rev_string_append, append_assoc. reflexivity.
Qed.

(** [strings.Split(s, ",")], as [create user] uses it on its lists of
    usernames: joining the pieces with commas gives the list back, there is
    one piece more than there are commas (so the empty list has one piece,
    the empty username, and two commas in a row give an empty username in
    between), and no piece holds a comma. *)
Theorem Split_pieces (s : string) :
  String.concat "," (strings.Split s) = s
  /\ List.length (strings.Split s) = S (strings.commas s)
  /\ Forall (fun piece => strings.commas piece = O) (strings.Split s).
Proof. exact (split_comma_spec s [] eq_refl). Qed.

Lemma additions_length (w : World) (clusterID role : string)
  (usernames : list string) :
  (forall username, exists user, newUser w username = Ok user) ->
  List.length (createuser.additions w clusterID role usernames)
  = List.length usernames.
Proof.
  intro Hbuild. unfold createuser.additions.
  induction usernames as [|username rest IH]; [reflexivity|].
  cbn [flat_map]. destruct (Hbuild username) as [user ->].
  cbn [app List.length]. now rewrite IH.
Qed.

(** X1. A loop of [create user] over a list with n commas sends n+1
    requests when every user can be built: one for each piece between the
    commas, the empty ones included. *)
Theorem one_request_per_piece (w : World)
  (clusterKey clusterID role usernames : string) :
  (forall username, exists user, newUser w username = Ok user) ->
  List.length
    (requests (fst (createuser.addUsers w clusterKey clusterID role 0
                      (strings.Split usernames))))
  = S (strings.commas usernames).
Proof.
  intro Hbuild.
  rewrite addUsers_requests, (additions_length _ _ _ _ Hbuild).
  apply Split_pieces.
Qed.

Lemma one_request_per_piece_witness :
  List.length
    (requests (fst (createuser.addUsers (sample.world "ready" "" "")
                      "mycluster" "1a2b3c" "cluster-admin" 0
                      (strings.Split "alice,,bob,"))))
  = 4%nat.
Proof.
  assert (Hbuild : forall username,
            exists user, newUser (sample.world "ready" "" "") username = Ok user).
  { intro username. exists username. reflexivity. }
  exact (one_request_per_piece (sample.world "ready" "" "")
           "mycluster" "1a2b3c" "cluster-admin" "alice,,bob," Hbuild).
Defined.

(** ** Validation of the version and of the machine type *)

(** X2. [validateVersion] and [validateMachineType] return no error exactly
    for the empty string and for the elements of the list; the machine type
    then comes back as it was given, and the version with the prefix
    [openshift-v] unless it is empty. With an error, the value comes back
    as it was given. *)
Theorem validation_accepts_exactly (value : string) (list : list string) :
  (snd (createcluster.validateVersion value list) = None
   <-> value = "" \/ In value list)
  /\ (snd (createcluster.validateMachineType value list) = None
      <-> value = "" \/ In value list)
  /\ fst (createcluster.validateMachineType value list) = value
  /\ fst (createcluster.validateVersion value list)
     = (if String.eqb value "" then ""
        else if createcluster.hasValue value list then "openshift-v" ++ value
             else value).
Proof.
  unfold createcluster.validateVersion, createcluster.validateMachineType.
  destruct (String.eqb_spec value "") as [->|Hne]; cbn [negb fst snd].
  - repeat split; auto.
  - destruct (createcluster.hasValue value list) eqn:Hhas; cbn [negb fst snd].
    + apply hasValue_In in Hhas. repeat split; auto.
    + apply hasValue_false in Hhas.
      repeat split; try discriminate; intros [H|H]; contradiction.
Qed.

(** X3. [getRegionList] and [getMachineTypeList] give the identifiers of
    the fetched items as they are, in the order of the answer, after one
    request; when the request fails they give no list and an error that
    says what could not be retrieved. *)
Theorem list_getters (w : World) :
  (forall ids, fetchRegions w = Ok ids ->
     createcluster.getRegionList w = ([Send GetRegions], Returns (ids, None)))
  /\ (forall ids, fetchMachineTypes w = Ok ids ->
        createcluster.getMachineTypeList w
        = ([Send GetMachineTypes], Returns (ids, None)))
  /\ (forall err, fetchRegions w = Err err ->
        createcluster.getRegionList w
        = ([Send GetRegions],
           Returns ([], Some ("Failed to retrieve AWS regions: " ++ err))))
  /\ (forall err, fetchMachineTypes w = Err err ->
        createcluster.getMachineTypeList w
        = ([Send GetMachineTypes],
           Returns ([], Some ("Failed to retrieve machine types: " ++ err))))
  /\ (forall err, fetchVersions w = Err err ->
        createcluster.getVersionList w
        = ([Send GetVersions],
           Returns ([], Some ("Failed to retrieve versions: " ++ err)))).
Proof.
  unfold createcluster.getRegionList, createcluster.getMachineTypeList,
    createcluster.getVersionList, send, emit, bind, ret.
  repeat split; intros x Hx; rewrite Hx; cbn; rewrite ?collect_map, ?map_id;
    reflexivity.
Qed.

Lemma list_getters_witness :
  createcluster.getRegionList (sample.world "ready" "" "")
  = ([Send GetRegions], Returns (["us-east-1"; "us-east-2"], None)).
Proof.
  exact (proj1 (list_getters (sample.world "ready" "" "")) _ eq_refl).
Defined.

(** ** The expiration *)

(** X4. [validateExpiration] takes any duration but zero, also a negative
    one: it returns no error, and for a duration of minus one second or
    less a time of expiration that is already past. *)
Theorem negative_expiration_accepted (w : World) (args : createcluster.Args) :
  createcluster.expirationTime args = "" ->
  createcluster.expirationDuration args <= - time.Second ->
  snd (createcluster.validateExpiration w args) = None
  /\ fst (createcluster.validateExpiration w args) < timeNow w.
Proof.
  intros Ht Hd. unfold createcluster.validateExpiration.
  rewrite Ht. cbn [String.length Z.of_nat Z.ltb Z.compare andb].
  assert (Hz : (createcluster.expirationDuration args =? 0) = false).
  { apply Z.eqb_neq. unfold time.Second in Hd. lia. }
  rewrite Hz. cbn [negb fst snd]. split; [reflexivity|].
  pose proof (Round_Second_nearest
                (time.Add (timeNow w) (createcluster.expirationDuration args)))
    as Hnear.
  unfold time.Add, time.Second in *. lia.
Qed.

Lemma negative_expiration_accepted_witness :
  fst (createcluster.validateExpiration (sample.world "ready" "" "")
         (sample.createArgs "mycluster" "" "" "" (-3600000000000)))
  < 1600000000123456789.
Proof.
  apply (negative_expiration_accepted (sample.world "ready" "" "")
           (sample.createArgs "mycluster" "" "" "" (-3600000000000)) eq_refl).
  unfold time.Second. simpl. lia.
Defined.

(** ** The description of a cluster *)



(** X6. [describe cluster] shows a cluster as private exactly when one of
    its ingresses is the default one and listens internally. *)
Theorem private_shown (ingresses : list Ingress) :
  (describecluster.isPrivateOf ingresses = "Yes"
   <-> exists ingress,
         In ingress ingresses
         /\ ingress_Default ingress = true
         /\ ingress_Listening ingress = ListeningMethodInternal)
  /\ (describecluster.isPrivateOf ingresses = "No"
      \/ describecluster.isPrivateOf ingresses = "Yes").
Proof.
  unfold describecluster.isPrivateOf.
  set (f := fun (isPrivate : string) (ingress : Ingress) =>
              if ingress_Default ingress
                 && String.eqb (ingress_Listening ingress)
                      ListeningMethodInternal
              then "Yes" else isPrivate).
  assert (H : forall acc,
            (fold_left f ingresses acc = "Yes"
             <-> acc = "Yes"
                 \/ exists ingress,
                      In ingress ingresses
                      /\ ingress_Default ingress = true
                      /\ ingress_Listening ingress = ListeningMethodInternal)
            /\ (fold_left f ingresses acc = acc
                \/ fold_left f ingresses acc = "Yes")).
  { induction ingresses as [|ingress rest IH]; intro acc; cbn [fold_left].
    - split; [|now left]. split; [now left|].
      intros [H|(ingress & [] & _)]. exact H.
    - destruct (IH (f acc ingress)) as [Hiff Hor]. split.
      + rewrite Hiff. unfold f at 1.
        destruct (ingress_Default ingress) eqn:Hd;
          [destruct (String.eqb_spec (ingress_Listening ingress)
                       ListeningMethodInternal) as [Hl|Hl]|]; cbn [andb].
        * split; [|now left]. intros _. right. exists ingress. cbn. auto.
        * split.
          -- intros [H|(i & Hin & Hi)]; [now left|].
             right. exists i. cbn. auto.
          -- intros [H|(i & [<-|Hin] & Hid & Hil)]; [now left | contradiction|].
             right. now exists i.
        * split.
          -- intros [H|(i & Hin & Hi)]; [now left|].
             right. exists i. cbn. auto.
          -- intros [H|(i & [<-|Hin] & Hid & Hil)]; [now left | congruence|].
             right. now exists i.
      + destruct Hor as [Hor|Hor]; [|now right].
        rewrite Hor. unfold f.
        destruct (ingress_Default ingress
                  && String.eqb (ingress_Listening ingress)
                       ListeningMethodInternal); [now right | now left]. }
  destruct (H "No") as [Hiff Hor]. split; [|exact Hor].
  rewrite Hiff. split; [intros [H'|H']; [discriminate | exact H'] | now right].
Qed.

(** X7. The description that [describe cluster] prints has the two lines
    of the provisioning error exactly when the state in the status of the
    cluster is the error state, and the line of the scheduled upgrade
    exactly when there is one. *)
Theorem optional_lines (w : World) (cluster : Cluster) (accountID : string)
  (ingresses : list Ingress) (upgrade : option UpgradePolicy)
  (detailsPage : string) :
  let lines := describecluster.descriptionLines w cluster accountID ingresses
                 upgrade detailsPage in
  ((exists line, In line lines
                 /\ String.prefix "Provisioning Error Code:" line = true)
   <-> status_State (cluster_Status cluster) = ClusterStateError)
  /\ ((exists line, In line lines
                    /\ String.prefix "Provisioning Error Message:" line = true)
      <-> status_State (cluster_Status cluster) = ClusterStateError)
  /\ ((exists line, In line lines
                    /\ String.prefix "Scheduled upgrade:" line = true)
      <-> upgrade <> None).
Proof.
  cbv zeta. unfold describecluster.descriptionLines.
  assert (Hshort : forall line,
            In line (describecluster.shortDescription w cluster accountID
                       (describecluster.phaseOf cluster)
                       (describecluster.isPrivateOf ingresses)
                       (describecluster.nodesStrOf (cluster_Nodes cluster))) ->
            String.prefix "Provisioning Error Code:" line = false
            /\ String.prefix "Provisioning Error Message:" line = false
            /\ String.prefix "Scheduled upgrade:" line = false).
  { unfold describecluster.shortDescription, describecluster.nodesStrOf.
    intros line H. cbn [In] in H.
    repeat (destruct H as [H|H]); try contradiction; subst line;
      try (repeat split; reflexivity).
    destruct (nodes_AutoscaleCompute (cluster_Nodes cluster));
      repeat split; reflexivity. }
  assert (Hdetails : forall line,
            In line (describecluster.detailsLines detailsPage
                       (cluster_ID cluster)) ->
            String.prefix "Provisioning Error Code:" line = false
            /\ String.prefix "Provisioning Error Message:" line = false
            /\ String.prefix "Scheduled upgrade:" line = false).
  { unfold describecluster.detailsLines. intros line H.
    destruct (negb (String.eqb detailsPage "")); [|contradiction].
    destruct H as [<-|[]]. repeat split; reflexivity. }
  assert (Herror : forall line,
            In line (describecluster.errorLines cluster) ->
            status_State (cluster_Status cluster) = ClusterStateError
            /\ String.prefix "Scheduled upgrade:" line = false).
  { unfold describecluster.errorLines. intros line H.
    destruct (String.eqb_spec (status_State (cluster_Status cluster))
                ClusterStateError) as [He|He]; [|contradiction].
    split; [exact He|]. destruct H as [<-|[<-|[]]]; reflexivity. }
  assert (Hupgrade : forall line,
            In line (describecluster.upgradeLines w upgrade) ->
            upgrade <> None
            /\ String.prefix "Provisioning Error Code:" line = false
            /\ String.prefix "Provisioning Error Message:" line = false).
  { unfold describecluster.upgradeLines. intros line H.
    destruct upgrade as [policy|]; [|contradiction].
    split; [discriminate|]. destruct H as [<-|[]]. split; reflexivity. }
  split; [|split]; split.
  - intros (line & Hin & Hpre). rewrite !in_app_iff in Hin.
    destruct Hin as [H|[H|[H|H]]].
    + apply Hshort in H. destruct H as (H1 & H2 & H3). congruence.
    + apply Hdetails in H. destruct H as (H1 & H2 & H3). congruence.
    + apply Hupgrade in H. destruct H as (H1 & H2 & H3). congruence.
    + now apply Herror in H.
  - intro He.
    exists ("Provisioning Error Code:    " ++
            status_ProvisionErrorCode (cluster_Status cluster) ++ nl).
    split; [|reflexivity]. rewrite !in_app_iff. do 3 right.
    unfold describecluster.errorLines. rewrite He. now left.
  - intros (line & Hin & Hpre). rewrite !in_app_iff in Hin.
    destruct Hin as [H|[H|[H|H]]].
    + apply Hshort in H. destruct H as (H1 & H2 & H3). congruence.
    + apply Hdetails in H. destruct H as (H1 & H2 & H3). congruence.
    + apply Hupgrade in H. destruct H as (H1 & H2 & H3). congruence.
    + now apply Herror in H.
  - intro He.
    exists ("Provisioning Error Message: " ++
            status_ProvisionErrorMessage (cluster_Status cluster) ++ nl).
    split; [|reflexivity]. rewrite !in_app_iff. do 3 right.
    unfold describecluster.errorLines. rewrite He. right. now left.
  - intros (line & Hin & Hpre). rewrite !in_app_iff in Hin.
    destruct Hin as [H|[H|[H|H]]].
    + apply Hshort in H. destruct H as (H1 & H2 & H3). congruence.
    + apply Hdetails in H. destruct H as (H1 & H2 & H3). congruence.
    + now apply Hupgrade in H.
    + apply Herror in H. destruct H as (H1 & H2). congruence.
  - intro Hsome. destruct upgrade as [policy|]; [|now elim Hsome].
    exists ("Scheduled upgrade:          " ++ upgrade_Version policy ++
            " on " ++
            timeFormat w (upgrade_NextRun policy) "2006-01-02 15:04 MST" ++
            nl).
    split; [|reflexivity]. rewrite !in_app_iff. right; right; left.
    now left.
Qed.

(** ** Looking up an identity provider *)

(** X8. The loop of [delete idp] over the identity providers of the
    cluster finds one exactly when one has the given name, and of several
    with that name it keeps the last. *)
Theorem findIdp_last (idpName : string) (idps : list IdentityProvider) :
  (deleteidp.findIdp idpName idps = None
   <-> forall item, In item idps -> idp_Name item <> idpName)
  /\ (forall idp, deleteidp.findIdp idpName idps = Some idp ->
        idp_Name idp = idpName
        /\ exists before after,
             idps = (before ++ idp :: after)%list
             /\ forall item, In item after -> idp_Name item <> idpName).
Proof.
  unfold deleteidp.findIdp.
  set (f := fun (idp : option IdentityProvider) (item : IdentityProvider) =>
              if String.eqb (idp_Name item) idpName then Some item else idp).
  assert (H : forall acc,
            (fold_left f idps acc = acc
             /\ forall item, In item idps -> idp_Name item <> idpName)
            \/ exists idp before after,
                 fold_left f idps acc = Some idp
                 /\ idp_Name idp = idpName
                 /\ idps = (before ++ idp :: after)%list
                 /\ forall item, In item after -> idp_Name item <> idpName).
  { induction idps as [|item rest IH]; intro acc; cbn [fold_left].
    - left. split; [reflexivity | intros item []].
    - destruct (IH (f acc item)) as [[Hfold Hnone]|(idp & before & after & Hfold & Hname & Hrest & Hafter)].
      + destruct (String.eqb (idp_Name item) idpName) eqn:E.
        * right. exists item, [], rest.
          split; [rewrite Hfold; unfold f; now rewrite E|].
          split; [now apply String.eqb_eq|].
          split; [reflexivity | exact Hnone].
        * left. split; [rewrite Hfold; unfold f; now rewrite E|].
          intros item' [<-|Hin]; [now apply String.eqb_neq | auto].
      + right. exists idp, (item :: before), after.
        subst rest. repeat split; auto. }
  destruct (H None) as [[Hfold Hnone]|(idp & before & after & Hfold & Hname & Hrest & Hafter)].
  - rewrite Hfold. split; [tauto | discriminate].
  - rewrite Hfold. split.
    + split; [discriminate|]. intro Hnone. exfalso.
      apply (Hnone idp); [|exact Hname].
      rewrite Hrest. apply in_or_app. right. now left.
    + intros idp' [= <-]. split; [exact Hname|]. now exists before, after.
Qed.

(** ** The client builder, again *)

Section BuildAgain.

Context {Logger OCMLogger Connection : Type}.
Variable sdk : ocm.Services Logger OCMLogger Connection.

(** X9. [Build] returns either a client or an error, never both and
    never neither; without a logger it returns no client, and a
    configuration given to the builder is used without loading the cached
    one. *)
Theorem Build_client_or_error (b : ocm.ClientBuilder Logger) :
  (fst (ocm.Build sdk b) = None <-> snd (ocm.Build sdk b) <> None)
  /\ (ocm.logger b = None -> fst (ocm.Build sdk b) = None)
  /\ (forall c, ocm.cfg b = Some c -> ocm.logger b = None ->
        ocm.Build sdk b = (None, Some "Logger is mandatory"))
  /\ (forall c, ocm.cfg b = Some c -> ocm.configuration sdk b = Ok c).
Proof.
  unfold ocm.Build, ocm.configuration.
  destruct (ocm.cfg b) as [c|]; [|destruct (ocm.Load sdk) as [[c|]|err]];
    destruct (ocm.logger b) as [lg|];
    try destruct (ocm.NewOCMLogger sdk lg) as [l|err'];
    try destruct (ocm.BuildConnection sdk (ocm.prepare l c)) as [conn|err''];
    try destruct (ocm.Tokens sdk conn (10 * time.Minute));
    cbn [fst snd];
    (split; [split; intro H; try reflexivity; try discriminate;
             try (now elim H)
            |split; [intro H; try reflexivity; discriminate
                    |split; [intros c0 H H'; try reflexivity; discriminate
                            |intros c0 H; try discriminate; assumption
                             || (injection H as <-; reflexivity)]]]).
Qed.

End BuildAgain.

Lemma Build_client_or_error_witness :
  ocm.Build (ocm.sampleServices None None)
    {| ocm.logger := None; ocm.cfg := Some ocm.sampleConfig |}
  = (None, Some "Logger is mandatory").
Proof.
  exact (proj1 (proj2 (proj2
           (Build_client_or_error (ocm.sampleServices None None)
              {| ocm.logger := None; ocm.cfg := Some ocm.sampleConfig |})))
           ocm.sampleConfig eq_refl eq_refl).
Defined.

(** ** The parameters of an add-on *)

Lemma bind_ret {A B : Type} (a : A) (k : A -> Cmd B) : bind (ret a) k = k a.
Proof. unfold bind, ret. now destruct (k a). Qed.

Lemma bind_exits {A B : Type} (t : list Event) (code : Z) (k : A -> Cmd B) :
  bind (t, Exits code) k = (t, Exits code).
Proof. reflexivity. Qed.

Lemma bind_emit_exit {A B : Type} (e : Event) (code : Z) (k : A -> Cmd B) :
  bind (emit e ;; os_Exit code) k = ([e], Exits code).
Proof. reflexivity. Qed.

(** X10. When the loop of [install addon] over the parameters of the
    add-on returns, it has added one value for each parameter, in the order
    of the parameters and under the identifier of the parameter, after the
    values it started with; and the value of every parameter that has a
    validation matches it. It has reported nothing. *)
Theorem eachParameter_values (w : World) (parameters : list AddOnParameter) :
  forall params out,
    snd (installaddon.eachParameter w parameters params) = Returns out ->
    fst (installaddon.eachParameter w parameters params) = []
    /\ exists added,
         out = (params ++ added)%list
         /\ Forall2
              (fun param value =>
                 Key value = param_ID param
                 /\ (param_Validation param = ""
                     \/ regexpMatchString w (param_Validation param)
                          (Val value) = Ok true))
              parameters added.
Proof.
  induction parameters as [|param rest IH]; intros params out.
  - cbn. intros [= <-]. split; [reflexivity|]. exists [].
    rewrite app_nil_r. split; [reflexivity | constructor].
  - cbn [installaddon.eachParameter]. cbv zeta.
    match goal with
    | |- context [match ?answer with Ok _ => _ | Err _ => _ end] =>
        destruct answer as [val|err]
    end; [|rewrite bind_emit_exit; discriminate].
    rewrite bind_ret.
    destruct (String.eqb_spec (param_Validation param) "") as [Hv|Hv];
      cbn [negb].
    + rewrite bind_ret. intro Hout.
      destruct (IH _ _ Hout) as (Htrace & added & -> & Hall).
      split; [exact Htrace|].
      exists ({| Key := param_ID param; Val := val |} :: added).
      rewrite <- app_assoc. split; [reflexivity|].
      constructor; [cbn; auto | exact Hall].
    + destruct (regexpMatchString w (param_Validation param) val)
        as [[|]|err] eqn:Hmatch;
        try (rewrite bind_emit_exit; discriminate).
      rewrite bind_ret. intro Hout.
      destruct (IH _ _ Hout) as (Htrace & added & -> & Hall).
      split; [exact Htrace|].
      exists ({| Key := param_ID param; Val := val |} :: added).
      rewrite <- app_assoc. split; [reflexivity|].
      constructor; [cbn; auto | exact Hall].
Qed.

Lemma eachParameter_values_witness :
  exists added,
    [{| Key := "size"; Val := "" |}] = ([] ++ added)%list
    /\ Forall2
         (fun param value =>
            Key value = param_ID param
            /\ (param_Validation param = ""
                \/ regexpMatchString (sample.world "ready" "" "")
                     (param_Validation param) (Val value) = Ok true))
         [{| param_ID := "size"; param_Name := "Size";
             param_Description := "Size of the workspace";
             param_DefaultValue := ""; param_Required := true;
             param_ValueType := "string"; param_Validation := "^[a-z]*$" |}]
         added.
Proof.
  exact (proj2 (eachParameter_values (sample.world "ready" "" "")
                  [{| param_ID := "size"; param_Name := "Size";
                      param_Description := "Size of the workspace";
                      param_DefaultValue := ""; param_Required := true;
                      param_ValueType := "string";
                      param_Validation := "^[a-z]*$" |}]
                  [] [{| Key := "size"; Val := "" |}] eq_refl)).
Defined.

(** ** What [describe cluster] prints, and when *)




(** ** What [delete idp] deletes *)

Lemma deleteidp_paths (w : World) (args : deleteidp.Args) (idpName : string) :
  post [] (deleteidp.run w args idpName)
    (fun t _ =>
       forall clusterID idpID,
         In (Send (DeleteIdentityProvider clusterID idpID)) t ->
         clusterprovider.IsValidClusterKey (deleteidp.clusterKey args) = true
         /\ confirm w ("delete identity provider " ++ idpName ++
                       " on cluster " ++ deleteidp.clusterKey args) = true
         /\ exists arn cluster idps idp,
              getCluster w (deleteidp.clusterKey args) arn = Ok cluster
              /\ clusterID = cluster_ID cluster
              /\ getIdentityProviders w clusterID = Ok idps
              /\ deleteidp.findIdp idpName idps = Some idp
              /\ idpID = idp_ID idp).
Proof.
  unfold deleteidp.run. cbv zeta. steps.
  all: cbn [app]; intros clusterID idpID Hin; in_trace Hin.
  all: injection Hin as <- <-.
  all: match goal with
       | H : negb _ = false |- _ => apply negb_false_iff in H
       end.
  all: split; [assumption|]; split; [first [assumption | reflexivity]|].
  all: do 4 eexists; repeat split; first [eassumption | reflexivity].
Qed.

(** X12. [delete idp] asks for the deletion of an identity provider only
    after the user has confirmed it, for a valid cluster key, and only of
    the provider that its lookup by name has found among those of the
    cluster it has fetched. *)
Theorem delete_only_found (w : World) (args : deleteidp.Args)
  (idpName : string) :
  (forall clusterID idpID,
     In (Send (DeleteIdentityProvider clusterID idpID))
        (trace (deleteidp.run w args idpName)) ->
     clusterprovider.IsValidClusterKey (deleteidp.clusterKey args) = true
     /\ confirm w ("delete identity provider " ++ idpName ++
                   " on cluster " ++ deleteidp.clusterKey args) = true
     /\ exists arn cluster idps idp,
          getCluster w (deleteidp.clusterKey args) arn = Ok cluster
          /\ clusterID = cluster_ID cluster
          /\ getIdentityProviders w clusterID = Ok idps
          /\ deleteidp.findIdp idpName idps = Some idp
          /\ idpID = idp_ID idp
          /\ idp_Name idp = idpName).
Proof.
  intros clusterID idpID Hin.
  destruct (post_run _ _ (deleteidp_paths w args idpName) _ _ Hin)
    as (Hkey & Hconfirm & arn & cluster & idps & idp & H1 & H2 & H3 & H4 & H5).
  split; [exact Hkey|]. split; [exact Hconfirm|].
  exists arn, cluster, idps, idp. repeat split; try assumption.
  exact (proj1 (proj2 (findIdp_last idpName idps) idp H4)).
Qed.

Lemma delete_only_found_witness :
  confirm (sample.world "ready" "" "")
    ("delete identity provider " ++ "github-1" ++ " on cluster " ++ "mycluster")
  = true
  /\ exists idp,
       deleteidp.findIdp "github-1"
         [{| idp_ID := "idp1"; idp_Name := "github-1" |}] = Some idp
       /\ "idp1" = idp_ID idp.
Proof.
  assert (Hin : In (Send (DeleteIdentityProvider "1a2b3c" "idp1"))
                  (trace (deleteidp.run (sample.world "ready" "" "")
                            {| deleteidp.clusterKey := "mycluster" |}
                            "github-1"))).
  { unfold trace. cbn. repeat (first [left; reflexivity | right]). }
  destruct (delete_only_found (sample.world "ready" "" "")
              {| deleteidp.clusterKey := "mycluster" |} "github-1"
              "1a2b3c" "idp1" Hin)
    as (_ & Hconfirm & arn & cluster & idps & idp & _ & _ & Hidps & Hfind
        & Hid & _).
  split; [exact Hconfirm|].
  exists idp. split; [|exact Hid].
  injection Hidps as <-. exact Hfind.
Defined.

(** ** The requests of [create cluster], in order *)

Ltac one_of :=
  first [ reflexivity | eexists; reflexivity | left; one_of | right; one_of ].

Lemma create_requests_paths (w : World) (args : createcluster.Args) :
  post [] (createcluster.run w args)
    (fun t o =>
       requests t = []
       \/ requests t = [NewOCMConnection]
       \/ requests t = [NewOCMConnection; GetRegions]
       \/ requests t = [NewOCMConnection; GetRegions; GetVersions]
       \/ requests t = [NewOCMConnection; GetRegions; GetVersions;
                        GetMachineTypes]
       \/ (exists spec,
             requests t = [NewOCMConnection; GetRegions; GetVersions;
                           GetMachineTypes; CreateCluster spec])
       \/ (exists spec,
             requests t = [NewOCMConnection; GetRegions; GetVersions;
                           GetMachineTypes; CreateCluster spec;
                           CloseConnection])).
Proof.
  unfold createcluster.run. steps.
  all: cbn [app requests]; one_of.
Qed.

(** X13. Whatever happens, the requests of a run of [create cluster] are
    a beginning of one sequence: the connection to OCM, the regions, the
    versions, the machine types, one request to create the cluster, and
    the closing of the connection. So the cluster is asked for at most
    once, never before the three lists have been fetched, and the connection
    is closed only after the cluster has been asked for. *)
Theorem create_requests_in_order (w : World) (args : createcluster.Args) :
  let sent := requests (trace (createcluster.run w args)) in
  sent = []
  \/ sent = [NewOCMConnection]
  \/ sent = [NewOCMConnection; GetRegions]
  \/ sent = [NewOCMConnection; GetRegions; GetVersions]
  \/ sent = [NewOCMConnection; GetRegions; GetVersions; GetMachineTypes]
  \/ (exists spec,
        sent = [NewOCMConnection; GetRegions; GetVersions; GetMachineTypes;
                CreateCluster spec])
  \/ (exists spec,
        sent = [NewOCMConnection; GetRegions; GetVersions; GetMachineTypes;
                CreateCluster spec; CloseConnection]).
Proof. exact (post_run _ _ (create_requests_paths w args)). Qed.

(** ** The loops, event by event *)

(** The events of a loop of [create user]: reports, and requests that add
    a user to the group of the loop on the cluster of the loop. *)
Lemma addUsers_events (w : World) (clusterKey clusterID role : string)
  (usernames : list string) (position : nat) :
  Forall (fun e => (exists format args, e = Errorf format args)
                   \/ exists user,
                        e = Send (AddUser clusterID (role ++ "s") user))
    (fst (createuser.addUsers w clusterKey clusterID role position usernames)).
Proof.
  revert position. induction usernames as [|username rest IH]; intro position.
  - constructor.
  - rewrite (proj1 (addUsers_cons w clusterKey clusterID role position
                      username rest)).
    apply Forall_app. split; [|apply IH].
    cbn [createuser.addUsers].
    destruct (newUser w username) as [user|err]; cbn.
    + destruct (addUser w clusterID (role ++ "s") position user); cbn;
        repeat (apply Forall_cons; [|try apply Forall_nil]); eauto.
    + apply Forall_cons; [|apply Forall_nil]. eauto.
Qed.

Lemma post_addUsers_events (w : World) (clusterKey clusterID role : string)
  (usernames : list string) (position : nat) (pre : list Event)
  (Q : list Event -> Outcome unit -> Prop) :
  (forall t,
     Forall (fun e => (exists format args, e = Errorf format args)
                      \/ exists user,
                           e = Send (AddUser clusterID (role ++ "s") user)) t ->
     Q (pre ++ t)%list (Returns tt)) ->
  post pre (createuser.addUsers w clusterKey clusterID role position usernames)
    Q.
Proof.
  intro H. unfold post. rewrite addUsers_returns.
  apply H, addUsers_events.
Qed.

(** The loop of [install addon] ends the process after one report, or
    returns the values without any event. *)
Lemma post_eachParameter_values (w : World) (parameters : list AddOnParameter)
  (params : list AddOnParam) (pre : list Event)
  (Q : list Event -> Outcome (list AddOnParam) -> Prop) :
  (forall format args, Q (pre ++ [Errorf format args])%list (Exits 1)) ->
  (forall out,
     snd (installaddon.eachParameter w parameters params) = Returns out ->
     Q pre (Returns out)) ->
  post pre (installaddon.eachParameter w parameters params) Q.
Proof.
  intros Hexit Hret.
  pose proof (post_eachParameter w parameters params []
                (fun t o => (o = Exits 1
                             /\ exists format args, t = [Errorf format args])
                            \/ (t = [] /\ exists out, o = Returns out))) as H.
  unfold post in *. cbn [app] in H.
  destruct H as [[Ho (format & args & Ht)]|[Ht (out & Ho)]].
  - intros format args. left. eauto.
  - intro out. right. eauto.
  - rewrite Ho, Ht. apply Hexit.
  - rewrite Ht, app_nil_r. rewrite Ho. apply Hret. exact Ho.
Qed.

Ltac step_events :=
  lazymatch goal with
  | |- post _ (createuser.addUsers _ _ _ _ _ _) _ =>
      apply post_addUsers_events; intros ? ?
  | |- post _ (installaddon.eachParameter _ _ _) _ =>
      apply post_eachParameter_values; [intros ? ? | intros ? ?]
  | _ => step
  end; cbv beta iota.

(** ** What [create user] adds, and where *)

Lemma createuser_paths (w : World) (args : createuser.Args) :
  post [] (createuser.run w args)
    (fun t _ =>
       forall clusterID group user,
         In (Send (AddUser clusterID group user)) t ->
         (group = "cluster-admins" \/ group = "dedicated-admins")
         /\ clusterprovider.IsValidClusterKey (createuser.clusterKey args)
            = true
         /\ exists arn cluster,
              getCluster w (createuser.clusterKey args) arn = Ok cluster
              /\ cluster_State cluster = ClusterStateReady
              /\ clusterID = cluster_ID cluster).
Proof.
  unfold createuser.run. cbv zeta. repeat step_events.
  all: intros clusterID group user Hin.
  all: rewrite ?in_app_iff in Hin; cbn [In] in Hin.
  all: repeat match goal with
       | H : _ \/ _ |- _ => destruct H as [H|H]
       end; try discriminate; try contradiction.
  all: match goal with
       | Hall : Forall _ ?t, H : In _ ?t |- _ =>
           rewrite Forall_forall in Hall;
           destruct (Hall _ H) as [(format & fargs & E)|(user' & E)];
           [discriminate E | injection E as -> -> ->]
       end.
  all: repeat match goal with
       | H : negb _ = false |- _ => apply negb_false_iff in H
       end.
  all: match goal with
       | H : String.eqb (cluster_State _) _ = true |- _ =>
           apply String.eqb_eq in H
       end.
  all: split; [first [now left | now right]|]; split; [assumption|].
  all: do 2 eexists; repeat split; first [eassumption | reflexivity].
Qed.

(** X14. [create user] only ever adds users to the groups
    [cluster-admins] and [dedicated-admins], for a valid cluster key, and
    on the cluster that it has fetched under that key and found ready. *)
Theorem users_added_to_admin_groups (w : World) (args : createuser.Args)
  (clusterID group user : string) :
  In (Send (AddUser clusterID group user)) (trace (createuser.run w args)) ->
  (group = "cluster-admins" \/ group = "dedicated-admins")
  /\ clusterprovider.IsValidClusterKey (createuser.clusterKey args) = true
  /\ exists arn cluster,
       getCluster w (createuser.clusterKey args) arn = Ok cluster
       /\ cluster_State cluster = ClusterStateReady
       /\ clusterID = cluster_ID cluster.
Proof. apply (post_run _ _ (createuser_paths w args)). Qed.

Lemma users_added_to_admin_groups_witness :
  ("dedicated-admins" = "cluster-admins"
   \/ "dedicated-admins" = "dedicated-admins")
  /\ clusterprovider.IsValidClusterKey "mycluster" = true.
Proof.
  assert (Hin : In (Send (AddUser "1a2b3c" "dedicated-admins" "dave"))
                  (trace (createuser.run (sample.world "ready" "" "")
                            {| createuser.clusterKey := "mycluster";
                               createuser.clusterAdmins := "alice";
                               createuser.dedicatedAdmins := "dave" |}))).
  { unfold trace. cbn. repeat (first [left; reflexivity | right]). }
  destruct (users_added_to_admin_groups (sample.world "ready" "" "")
              {| createuser.clusterKey := "mycluster";
                 createuser.clusterAdmins := "alice";
                 createuser.dedicatedAdmins := "dave" |}
              "1a2b3c" "dedicated-admins" "dave" Hin) as (Hgroup & Hkey & _).
  split; [exact Hgroup | exact Hkey].
Defined.

(** ** What [install addon] installs, and when *)

Lemma installaddon_paths (w : World) (args : installaddon.Args)
  (argv : list string) :
  post [] (installaddon.run w args argv)
    (fun t _ =>
       forall clusterKey arn addOnID params,
         In (Send (InstallAddOn clusterKey arn addOnID params)) t ->
         argv = [addOnID] /\ addOnID <> ""
         /\ clusterKey = installaddon.clusterKey args
         /\ clusterprovider.IsValidClusterKey clusterKey = true
         /\ confirm w ("install add-on '" ++ addOnID ++ "' on cluster '" ++
                       clusterKey ++ "'") = true
         /\ (exists cluster,
               getCluster w clusterKey arn = Ok cluster
               /\ cluster_State cluster = ClusterStateReady)
         /\ exists parameters,
              getAddOnParameters w addOnID = Ok parameters
              /\ (parameters = [] /\ params = []
                  \/ snd (installaddon.eachParameter w parameters [])
                     = Returns params)).
Proof.
  unfold installaddon.run. cbv zeta. repeat step_events.
  all: intros clusterKey arn addOnID params Hin.
  all: rewrite ?in_app_iff in Hin; cbn [In] in Hin.
  all: repeat match goal with
       | H : _ \/ _ |- _ => destruct H as [H|H]
       end; try discriminate; try contradiction.
  all: injection Hin as <- <- <- <-.
  all: repeat match goal with
       | H : negb _ = false |- _ => apply negb_false_iff in H
       end.
  all: match goal with
       | H : String.eqb (cluster_State _) _ = true |- _ =>
           apply String.eqb_eq in H
       end.
  all: match goal with
       | H : String.eqb _ "" = false |- _ => apply String.eqb_neq in H
       end.
  all: split; [reflexivity|]; split; [assumption|]; split; [reflexivity|];
    split; [assumption|]; split; [first [assumption | reflexivity]|];
    split; [eexists; split; eassumption|].
  all: eexists; split; [eassumption|].
  all: first [ right; assumption
             | left; split; [|reflexivity];
               match goal with
               | H : (0 <? List.length ?l)%nat = false |- _ =>
                   destruct l; [reflexivity | discriminate H]
               end ].
Qed.

(** X15. [install addon] asks for the installation only of the add-on
    named by its one argument, which is not empty, for a valid cluster key
    whose cluster it has fetched and found ready, after the user has
    confirmed it, and with the values that its loop over the parameters of
    the add-on has returned (none for an add-on without parameters). *)
Theorem install_only_confirmed (w : World) (args : installaddon.Args)
  (argv : list string) (clusterKey arn addOnID : string)
  (params : list AddOnParam) :
  In (Send (InstallAddOn clusterKey arn addOnID params))
     (trace (installaddon.run w args argv)) ->
  argv = [addOnID] /\ addOnID <> ""
  /\ clusterKey = installaddon.clusterKey args
  /\ clusterprovider.IsValidClusterKey clusterKey = true
  /\ confirm w ("install add-on '" ++ addOnID ++ "' on cluster '" ++
                clusterKey ++ "'") = true
  /\ (exists cluster,
        getCluster w clusterKey arn = Ok cluster
        /\ cluster_State cluster = ClusterStateReady)
  /\ exists parameters,
       getAddOnParameters w addOnID = Ok parameters
       /\ (parameters = [] /\ params = []
           \/ snd (installaddon.eachParameter w parameters [])
              = Returns params).
Proof. apply (post_run _ _ (installaddon_paths w args argv)). Qed.

Lemma install_only_confirmed_witness :
  confirm (sample.world "ready" "" "")
    ("install add-on '" ++ "codeready-workspaces" ++ "' on cluster '" ++
     "mycluster" ++ "'") = true.
Proof.
  assert (Hin : In (Send (InstallAddOn "mycluster" "arn:aws:iam::42:user/me"
                            "codeready-workspaces" []))
                  (trace (installaddon.run (sample.world "ready" "" "")
                            {| installaddon.clusterKey := "mycluster" |}
                            ["codeready-workspaces"]))).
  { unfold trace. cbn. repeat (first [left; reflexivity | right]). }
  exact (proj1 (proj2 (proj2 (proj2 (proj2
           (install_only_confirmed (sample.world "ready" "" "")
              {| installaddon.clusterKey := "mycluster" |}
              ["codeready-workspaces"] "mycluster" "arn:aws:iam::42:user/me"
              "codeready-workspaces" [] Hin)))))).
Defined.

(** ** Closing the connection *)

Ltac closes_on_return :=
  split;
  [ intros ? ?; cbn [In]; rewrite ?in_app_iff; cbn [In]; one_of
  | let H := fresh in intros ? H; discriminate H ].

Ltac stays_open_on_exit :=
  split;
  [ let H := fresh in intros ? H; discriminate H
  | let H := fresh in intros ? _ H; in_trace H ].

Ltac close_leaf := cbn [app]; first [stays_open_on_exit | closes_on_return].

Lemma describe_closes (w : World) (args : describecluster.Args)
  (argv : list string) :
  post [] (describecluster.run w args argv) closed_on_return.
Proof. unfold describecluster.run. repeat step_events. all: close_leaf. Qed.

Lemma createcluster_closes (w : World) (args : createcluster.Args) :
  post [] (createcluster.run w args) closed_on_return.
Proof. unfold createcluster.run. repeat step_events. all: close_leaf. Qed.

Lemma createuser_closes (w : World) (args : createuser.Args) :
  post [] (createuser.run w args) closed_on_return.
Proof. unfold createuser.run. repeat step_events. all: close_leaf. Qed.

Lemma installaddon_closes (w : World) (args : installaddon.Args)
  (argv : list string) :
  post [] (installaddon.run w args argv) closed_on_return.
Proof. unfold installaddon.run. repeat step_events. all: close_leaf. Qed.

Lemma deleteidp_closes (w : World) (args : deleteidp.Args) (idpName : string) :
  post [] (deleteidp.run w args idpName) closed_on_return.
Proof. unfold deleteidp.run. repeat step_events. all: close_leaf. Qed.

(** X16. In every command the connection to OCM is closed when, and only
    when, the run returns: the closing is deferred, and an exit of the
    process, with whatever status, leaves the deferred closing out. *)
Theorem close_only_on_return (w : World) (r : Cmd unit) :
  (exists args argv, r = describecluster.run w args argv)
  \/ (exists args, r = createcluster.run w args)
  \/ (exists args, r = createuser.run w args)
  \/ (exists args argv, r = installaddon.run w args argv)
  \/ (exists args idpName, r = deleteidp.run w args idpName) ->
  In (Send CloseConnection) (trace r) <-> snd r = Returns tt.
Proof.
  intro Hr.
  assert (H : closed_on_return (fst r) (snd r)).
  { destruct Hr as [(args & argv & ->)
                   |[(args & ->)
                    |[(args & ->)
                     |[(args & argv & ->)|(args & idpName & ->)]]]].
    - apply (post_run _ _ (describe_closes w args argv)).
    - apply (post_run _ _ (createcluster_closes w args)).
    - apply (post_run _ _ (createuser_closes w args)).
    - apply (post_run _ _ (installaddon_closes w args argv)).
    - apply (post_run _ _ (deleteidp_closes w args idpName)). }
  unfold trace. destruct H as [Hret Hexit].
  destruct (snd r) as [[]|code].
  - split; [reflexivity | intros _; now apply (Hret tt)].
  - split; [intro Hin; now elim (Hexit code eq_refl) | discriminate].
Qed.

Lemma close_only_on_return_witness :
  ~ In (Send CloseConnection)
      (trace (createuser.run (sample.world "installing" "" "")
                {| createuser.clusterKey := "mycluster";
                   createuser.clusterAdmins := "alice";
                   createuser.dedicatedAdmins := "" |}))
  /\ In (Send CloseConnection)
        (trace (createuser.run (sample.world "ready" "" "")
                  {| createuser.clusterKey := "mycluster";
                     createuser.clusterAdmins := "alice";
                     createuser.dedicatedAdmins := "" |})).
Proof.
  split.
  - intro Hin.
    apply (close_only_on_return (sample.world "installing" "" "") _
             (or_intror (or_intror (or_introl (ex_intro _ _ eq_refl))))) in Hin.
    discriminate Hin.
  - apply (close_only_on_return (sample.world "ready" "" "") _
             (or_intror (or_intror (or_introl (ex_intro _ _ eq_refl))))).
    reflexivity.
Defined.

(** ** When [create cluster] succeeds *)

Lemma create_outcome_paths (w : World) (args : createcluster.Args) :
  post [] (createcluster.run w args)
    (fun t o =>
       (forall spec err,
          In (Send (CreateCluster spec)) t ->
          createCluster w spec = Err err ->
          o = Exits 1
          /\ last t (Stdout "") = Errorf "Failed to create cluster: %v" [err])
       /\ ((exists a, o = Returns a) \/ o = Exits 0 ->
           exists spec cluster,
             In (Send (CreateCluster spec)) t
             /\ createCluster w spec = Ok cluster
             /\ In (Infof "Cluster '%s' has been created."
                      [cluster_Name cluster]) t
             /\ (createcluster.watch args = true
                 -> In (RunLogsCluster [cluster_ID cluster]) t))).
Proof.
  unfold createcluster.run. steps.
  all: cbn [app]; split;
    [ intros spec err Hin Herr; in_trace Hin; injection Hin as <-;
      first [ congruence
            | match goal with
              | H : createCluster _ _ = Err _ |- _ =>
                  rewrite H in Herr; injection Herr as <-
              end; split; reflexivity ]
    | intros [[? Hret]|Hexit]; try discriminate;
      do 2 eexists;
      (split; [cbn [In]; one_of|]);
      (split; [eassumption|]);
      (split; [cbn [In]; one_of|]);
      first [ intros _; cbn [In]; one_of | intro Hw; congruence ] ].
Qed.

(** X17. [create cluster] ends with status 0 only after the API has
    answered its request with the cluster, whose name it then reports as
    created, and with [--watch] after it has handed over to the logs of
    that cluster; when the API turns the request down, it reports the
    failure to create the cluster last and exits with status 1. *)
Theorem create_succeeds_with_cluster (w : World) (args : createcluster.Args) :
  (status (createcluster.run w args) = 0 ->
   exists spec cluster,
     In (Send (CreateCluster spec)) (trace (createcluster.run w args))
     /\ createCluster w spec = Ok cluster
     /\ In (Infof "Cluster '%s' has been created." [cluster_Name cluster])
          (trace (createcluster.run w args))
     /\ (createcluster.watch args = true ->
         In (RunLogsCluster [cluster_ID cluster])
            (trace (createcluster.run w args))))
  /\ (forall spec err,
        In (Send (CreateCluster spec)) (trace (createcluster.run w args)) ->
        createCluster w spec = Err err ->
        status (createcluster.run w args) = 1
        /\ last (trace (createcluster.run w args)) (Stdout "")
           = Errorf "Failed to create cluster: %v" [err]).
Proof.
  destruct (post_run _ _ (create_outcome_paths w args)) as [Hfail Hok].
  unfold status, trace. split.
  - intro Hstatus. apply Hok.
    destruct (snd (createcluster.run w args)) as [a|code];
      [left; now exists a | right; now rewrite Hstatus].
  - intros spec err Hin Herr. destruct (Hfail spec err Hin Herr) as [-> Hlast].
    split; [reflexivity | exact Hlast].
Qed.

Lemma create_succeeds_with_cluster_witness :
  exists spec cluster,
    In (Send (CreateCluster spec))
       (trace (createcluster.run (sample.world "ready" "" "")
                 (sample.createArgs "mycluster" "4.3.10" "" "" 0)))
    /\ createCluster (sample.world "ready" "" "") spec = Ok cluster.
Proof.
  destruct (proj1 (create_succeeds_with_cluster (sample.world "ready" "" "")
                     (sample.createArgs "mycluster" "4.3.10" "" "" 0))
              eq_refl) as (spec & cluster & Hin & Hok & _).
  now exists spec, cluster.
Defined.
